(** * A shallow embedding of the Workato MCP adapter

    The development follows the modules of the package:

    - [workato_mcp/client.py]: the class [WorkatoClient], one method per
      remote endpoint;
    - [workato_mcp/tools/*.py]: the tool functions registered with the
      runtime, each delegating to one client method;
    - [workato_mcp/server.py]: the start-up sequence.

    Python dictionaries are finite maps ([gmap string _]), Python values a
    small inductive type, and every method is a computation in a state and
    exception monad whose state holds the client object and the log of the
    calls made to the HTTP library. *)

From Stdlib Require Import ZArith Ascii String.
From stdpp Require Import gmap strings list fin_maps pretty.

Set Warnings "-register-all".
Open Scope string_scope.
Open Scope Z_scope.

(** ** Python values *)

(** The values that travel through the adapter: arguments of the tool
    functions, query parameters, JSON bodies and decoded responses. *)
Inductive value :=
  | VNone
  | VBool (b : bool)
  | VInt (z : Z)
  | VStr (s : string)
  | VBytes (b : list Byte.byte)
  | VList (l : list value)
  | VDict (m : gmap string value).

(** Python's truth test, as used by [if x:], [x or y] and [not x]. *)
Definition truthy (v : value) : bool :=
  match v with
  | VNone => false
  | VBool b => b
  | VInt z => negb (z =? 0)
  | VStr s => match s with EmptyString => false | _ => true end
  | VBytes b => match b with [] => false | _ => true end
  | VList l => match l with [] => false | _ => true end
  | VDict m => match map_to_list m with [] => false | _ => true end
  end.

(** [x is not None] *)
Definition is_not_None (v : value) : bool :=
  match v with VNone => false | _ => true end.

(** [x or y] *)
Definition py_or (x y : value) : value := if truthy x then x else y.

(** An optional string argument or environment value, seen as a value. *)
Definition of_opt_str (o : option string) : value :=
  match o with Some s => VStr s | None => VNone end.

Definition nl : string := String (ascii_of_nat 10) EmptyString.

(** [s.lower()] on ASCII letters. *)
Definition lower_ascii (c : ascii) : ascii :=
  let n := nat_of_ascii c in
  if ((65 <=? n) && (n <=? 90))%nat then ascii_of_nat (n + 32) else c.

Fixpoint lower (s : string) : string :=
  match s with
  | EmptyString => EmptyString
  | String c s' => String (lower_ascii c) (lower s')
  end.

(** [str(b)] for a boolean. *)
Definition str_bool (b : bool) : string := if b then "True" else "False".

(** Identifiers embedded in URL paths are typed [Union[int, str]]. *)
Inductive ident :=
  | IdInt (z : Z)
  | IdStr (s : string).

(** How an f-string renders an identifier: [str(i)]. *)
Definition fmt_id (i : ident) : string :=
  match i with
  | IdInt z => pretty z
  | IdStr s => s
  end.

Definition value_of_id (i : ident) : value :=
  match i with
  | IdInt z => VInt z
  | IdStr s => VStr s
  end.

(** [len(v)]; [None] stands for the [TypeError] of an unsized value. *)
Definition py_len (v : value) : option nat :=
  match v with
  | VStr s => Some (String.length s)
  | VBytes b => Some (length b)
  | VList l => Some (length l)
  | VDict m => Some (size m)
  | _ => None
  end.

(** ** The environment *)

(** The process environment after [load_dotenv()]. *)
Abbreviation Env := (gmap string string).

(** [os.getenv(name)] *)
Definition getenv (env : Env) (name : string) : option string := env !! name.

(** [os.getenv(name, default)] *)
Definition getenv_default (env : Env) (name default : string) : string :=
  match env !! name with Some s => s | None => default end.

(** ** Requests, responses, exceptions *)

Inductive Method := GET | POST | PUT | PATCH | DELETE.

(** One call to a verb method of [httpx.AsyncClient]: the URL and the keyword
    arguments.  A keyword that is not passed has the library's default,
    [None] ([False] for [follow_redirects]). *)
Record Request := {
  meth : Method;
  url : string;
  r_headers : gmap string string;
  params : value;
  json : value;
  content : value;
  follow_redirects : bool
}.

Record Response := {
  status_code : Z;
  resp_content : list Byte.byte
}.

Inductive exn :=
  | ValueError (msg : string)
  | HTTPStatusError (r : Response)
  | TransportError (detail : string)
  | JSONDecodeError
  | TypeError.

Inductive Outcome (A : Type) :=
  | Return (a : A)
  | Raise (e : exn).
Arguments Return {A} a.
Arguments Raise {A} e.

(** What the transport does with a request: a response, whatever its status,
    or a connectivity failure. *)
Inductive Reply :=
  | Responded (r : Response)
  | Failed (detail : string).

(** ** The client object *)

Record WorkatoClient := {
  api_token : string;
  base_url : string;
  headers : gmap string string
}.

Definition token_required : string :=
  "API token is required. Provide it as a parameter or set WORKATO_API_TOKEN environment variable.".

Definition default_base_url : string := "https://www.workato.com/api".

(** [WorkatoClient.__init__].  The attributes are assigned in the order of the
    source; the exception leaves before [base_url] and [headers] exist. *)
Definition init (env : Env) (api_token base_url : option string)
  : Outcome WorkatoClient :=
  let self_api_token :=
    py_or (of_opt_str api_token) (of_opt_str (getenv env "WORKATO_API_TOKEN")) in
  if negb (truthy self_api_token) then Raise (ValueError token_required)
  else
    match self_api_token with
    | VStr tok =>
        let self_base_url :=
          py_or (of_opt_str base_url)
                (VStr (getenv_default env "WORKATO_BASE_URL" default_base_url)) in
        match self_base_url with
        | VStr u =>
            Return {| api_token := tok;
                      base_url := u;
                      headers := <["Content-Type" := "application/json"]>
                                 (<["Authorization" := "Bearer " +:+ tok]> ∅) |}
        | _ => Raise TypeError
        end
    | _ => Raise TypeError
    end.

(** ** The monad of client methods *)

(** The state a method runs in: the client object it is called on and the
    calls made to the HTTP library so far, oldest first, each with the
    arguments it was made with, whether the library accepted it or not. *)
Record World := {
  client : WorkatoClient;
  wire : list Request
}.

Definition M (A : Type) : Type := World -> Outcome A * World.

Definition ret {A} (a : A) : M A := fun w => (Return a, w).

Definition raise {A} (e : exn) : M A := fun w => (Raise e, w).

Definition bind {A B} (m : M A) (k : A -> M B) : M B :=
  fun w =>
    match m w with
    | (Return a, w') => k a w'
    | (Raise e, w') => (Raise e, w')
    end.

Notation "'let!' x ':=' m 'in' k" := (bind m (fun x => k))
  (at level 10, x name, m at level 100, k at level 200).
Notation "'run!' m 'in' k" := (bind m (fun _ => k))
  (at level 10, m at level 100, k at level 200).

(** Reading [self]. *)
Definition get_self : M WorkatoClient := fun w => (Return (client w), w).

(** A request with only the URL and [headers=]. *)
Definition request (m : Method) (u : string) (h : gmap string string) : Request :=
  {| meth := m; url := u; r_headers := h;
     params := VNone; json := VNone; content := VNone;
     follow_redirects := false |}.

Definition with_params (p : value) (r : Request) : Request :=
  {| meth := meth r; url := url r; r_headers := r_headers r;
     params := p; json := json r; content := content r;
     follow_redirects := follow_redirects r |}.

Definition with_json (j : value) (r : Request) : Request :=
  {| meth := meth r; url := url r; r_headers := r_headers r;
     params := params r; json := j; content := content r;
     follow_redirects := follow_redirects r |}.

Definition with_content (c : value) (r : Request) : Request :=
  {| meth := meth r; url := url r; r_headers := r_headers r;
     params := params r; json := json r; content := c;
     follow_redirects := follow_redirects r |}.

Definition with_follow_redirects (b : bool) (r : Request) : Request :=
  {| meth := meth r; url := url r; r_headers := r_headers r;
     params := params r; json := json r; content := content r;
     follow_redirects := b |}.

(** [httpx.Response.is_success] *)
Definition is_success (r : Response) : bool :=
  (200 <=? status_code r) && (status_code r <=? 299).

(** The signatures of the verb methods of [httpx.AsyncClient]: [post], [put]
    and [patch] take the body keywords [json=] and [content=]; [get] and
    [delete] do not. *)
Definition takes_body (m : Method) : bool :=
  match m with
  | GET | DELETE => false
  | POST | PUT | PATCH => true
  end.

(** Whether the library accepts a call.  Python refuses a call that passes a
    keyword the function does not have.  The source passes a body keyword to
    [get] in one place and with a dictionary there, so a body that is not
    [None] on [get] or [delete] is a keyword that was passed. *)
Definition accepted (r : Request) : bool :=
  takes_body (meth r) || (negb (is_not_None (json r)) && negb (is_not_None (content r))).

(** ** Stand-ins for the surroundings *)

(** Concrete surroundings, used where a statement is evaluated on an example:
    a transport that answers every request with one fixed response, a decoder
    that knows the two bodies of the examples, and a renderer. *)
Definition body_ok : list Byte.byte := [Byte.x7b; Byte.x7d].

Definition body_jobs : list Byte.byte := [Byte.x5b; Byte.x5d].

Definition jobs_response : Response := {| status_code := 200; resp_content := body_jobs |}.
Definition error_response : Response := {| status_code := 500; resp_content := body_ok |}.

Definition answer (status : Z) (body : list Byte.byte) : Request -> Reply :=
  fun _ => Responded {| status_code := status; resp_content := body |}.

(** A transport that cannot reach the platform. *)
Definition refuse : Request -> Reply := fun _ => Failed "connection reset".

(** A body the decoder of the examples does not know. *)
Definition body_html : list Byte.byte := [Byte.x3c; Byte.x70; Byte.x3e].

(** An environment whose base-URL variable is set to the empty string. *)
Definition empty_url_env : Env :=
  <["WORKATO_API_TOKEN" := "test_token"]> (<["WORKATO_BASE_URL" := ""]> ∅).

Definition sample_jobs : value :=
  VList [VDict (<["id" := VInt 101]> (<["recipe_id" := VInt 1]> (<["status" := VStr "success"]> ∅)));
         VDict (<["id" := VInt 102]> (<["recipe_id" := VInt 1]> (<["status" := VStr "error"]> ∅)))].

Definition sample_loads (b : list Byte.byte) : option value :=
  match b with
  | [Byte.x7b; Byte.x7d] => Some (VDict ∅)
  | [Byte.x5b; Byte.x5d] => Some sample_jobs
  | _ => None
  end.

Definition sample_repr (v : value) : string :=
  match v with
  | VList _ => "[...]"
  | VDict _ => "{...}"
  | VBytes _ => "b'...'"
  | _ => ""
  end.

Definition sample_client : WorkatoClient :=
  {| api_token := "test_token";
     base_url := "https://test.workato.com/api";
     headers := <["Content-Type" := "application/json"]>
                (<["Authorization" := "Bearer test_token"]> ∅) |}.

Definition fresh (c : WorkatoClient) : World := {| client := c; wire := [] |}.

(** An environment with the credential and no base URL. *)
Definition token_only_env : Env := <["WORKATO_API_TOKEN" := "test_token"]> ∅.

Definition sample_env : Env :=
  <["WORKATO_API_TOKEN" := "test_token"]>
  (<["WORKATO_BASE_URL" := "https://test.workato.com/api"]> ∅).

(** ** [workato_mcp/client.py] *)

Module Client.
Section Methods.

(** The surroundings of the client: the transport behind [httpx] and the JSON
    decoder behind [response.json()] ([None] when the body is not JSON).  The
    transport stands for everything the library does with a call it accepted,
    up to the response it hands back: with [follow_redirects] set, the
    redirects it follows, to whatever host, are part of that. *)
Variable send : Request -> Reply.
Variable json_loads : list Byte.byte -> option value.

(** [await client.get(...)] and its siblings: the call is recorded; a call the
    function's signature does not allow raises a type error and goes no
    further; otherwise the transport answers or fails. *)
Definition http (r : Request) : M Response :=
  fun w =>
    (if accepted r
     then match send r with
          | Responded resp => Return resp
          | Failed d => Raise (TransportError d)
          end
     else Raise TypeError,
     {| client := client w; wire := wire w ++ [r] |}).

(** [response.raise_for_status()] *)
Definition raise_for_status (r : Response) : M unit :=
  if is_success r then ret tt else raise (HTTPStatusError r).

(** [response.json()] *)
Definition response_json (r : Response) : M value :=
  match json_loads (resp_content r) with
  | Some v => ret v
  | None => raise JSONDecodeError
  end.

(** *** The methods of [WorkatoClient] *)

Definition get_recipes (include_tags : bool) : M value :=
  let! self := get_self in
  let params : gmap string value := ∅ in
  let params := if include_tags then <["includes[]" := VStr "tags"]> params else params in
  let! response :=
    http (with_params (VDict params)
            (request GET (base_url self +:+ "/recipes") (headers self))) in
  run! raise_for_status response in
  response_json response.

Definition get_recipe_details (recipe_id : ident) : M value :=
  let! self := get_self in
  let! response :=
    http (request GET (base_url self +:+ "/recipes/" +:+ fmt_id recipe_id) (headers self)) in
  run! raise_for_status response in
  response_json response.

Definition start_recipe (recipe_id : ident) : M value :=
  let! self := get_self in
  let! response :=
    http (request PUT (base_url self +:+ "/recipes/" +:+ fmt_id recipe_id +:+ "/start")
            (headers self)) in
  run! raise_for_status response in
  response_json response.

Definition stop_recipe (recipe_id : ident) : M value :=
  let! self := get_self in
  let! response :=
    http (request PUT (base_url self +:+ "/recipes/" +:+ fmt_id recipe_id +:+ "/stop")
            (headers self)) in
  run! raise_for_status response in
  response_json response.

(** [json=input_data or {}] *)
Definition test_recipe (recipe_id : ident) (input_data : value) : M value :=
  let! self := get_self in
  let! response :=
    http (with_json (py_or input_data (VDict ∅))
            (request POST (base_url self +:+ "/recipes/" +:+ fmt_id recipe_id +:+ "/test_run")
               (headers self))) in
  run! raise_for_status response in
  response_json response.

Definition create_recipe (recipe_data : value) : M value :=
  let! self := get_self in
  let! response :=
    http (with_json (VDict (<["recipe" := recipe_data]> ∅))
            (request POST (base_url self +:+ "/recipes") (headers self))) in
  run! raise_for_status response in
  response_json response.

Definition update_recipe (recipe_id : ident) (recipe_data : value) : M value :=
  let! self := get_self in
  let! response :=
    http (with_json (VDict (<["recipe" := recipe_data]> ∅))
            (request PUT (base_url self +:+ "/recipes/" +:+ fmt_id recipe_id) (headers self))) in
  run! raise_for_status response in
  response_json response.

Definition delete_recipe (recipe_id : ident) : M value :=
  let! self := get_self in
  let! response :=
    http (request DELETE (base_url self +:+ "/recipes/" +:+ fmt_id recipe_id) (headers self)) in
  run! raise_for_status response in
  response_json response.

Definition get_jobs (recipe_id status limit : value) : M value :=
  let! self := get_self in
  let params : gmap string value := ∅ in
  let params := if truthy recipe_id then <["recipe_id" := recipe_id]> params else params in
  let params := if truthy status then <["status" := status]> params else params in
  let params := if truthy limit then <["limit" := limit]> params else params in
  let! response :=
    http (with_params (VDict params)
            (request GET (base_url self +:+ "/jobs") (headers self))) in
  run! raise_for_status response in
  response_json response.

Definition get_job_details (job_id : ident) : M value :=
  let! self := get_self in
  let! response :=
    http (request GET (base_url self +:+ "/jobs/" +:+ fmt_id job_id) (headers self)) in
  run! raise_for_status response in
  response_json response.

Definition get_folders : M value :=
  let! self := get_self in
  let! response :=
    http (request GET (base_url self +:+ "/folders") (headers self)) in
  run! raise_for_status response in
  response_json response.

Definition get_connections : M value :=
  let! self := get_self in
  let! response :=
    http (request GET (base_url self +:+ "/connections") (headers self)) in
  run! raise_for_status response in
  response_json response.

Definition get_connection_details (connection_id : ident) : M value :=
  let! self := get_self in
  let! response :=
    http (request GET (base_url self +:+ "/connections/" +:+ fmt_id connection_id)
            (headers self)) in
  run! raise_for_status response in
  response_json response.

(** [json=payload if payload else None] *)
Definition copy_recipe (recipe_id : ident) (folder_id : value) : M value :=
  let! self := get_self in
  let payload : gmap string value := ∅ in
  let payload := if truthy folder_id then <["folder_id" := folder_id]> payload else payload in
  let! response :=
    http (with_json (if truthy (VDict payload) then VDict payload else VNone)
            (request POST (base_url self +:+ "/recipes/" +:+ fmt_id recipe_id +:+ "/copy")
               (headers self))) in
  run! raise_for_status response in
  response_json response.

Definition reset_recipe_trigger (recipe_id : ident) : M value :=
  let! self := get_self in
  let! response :=
    http (request POST
            (base_url self +:+ "/recipes/" +:+ fmt_id recipe_id +:+ "/reset_trigger")
            (headers self)) in
  run! raise_for_status response in
  response_json response.

Definition update_recipe_connection (recipe_id : ident) (adapter_name : string)
    (connection_id : Z) : M value :=
  let! self := get_self in
  let payload : gmap string value :=
    <["connection_id" := VInt connection_id]> (<["adapter_name" := VStr adapter_name]> ∅) in
  let! response :=
    http (with_json (VDict payload)
            (request PUT (base_url self +:+ "/recipes/" +:+ fmt_id recipe_id +:+ "/connect")
               (headers self))) in
  run! raise_for_status response in
  response_json response.

Definition poll_recipe_now (recipe_id : ident) : M value :=
  let! self := get_self in
  let! response :=
    http (request POST (base_url self +:+ "/recipes/" +:+ fmt_id recipe_id +:+ "/poll_now")
            (headers self)) in
  run! raise_for_status response in
  response_json response.

Definition get_recipe_versions (recipe_id : ident) (page per_page : Z) : M value :=
  let! self := get_self in
  let params : gmap string value :=
    <["per_page" := VInt per_page]> (<["page" := VInt page]> ∅) in
  let! response :=
    http (with_params (VDict params)
            (request GET (base_url self +:+ "/recipes/" +:+ fmt_id recipe_id +:+ "/versions")
               (headers self))) in
  run! raise_for_status response in
  response_json response.

Definition get_recipe_version_details (recipe_id version_id : ident) : M value :=
  let! self := get_self in
  let! response :=
    http (request GET
            (base_url self +:+ "/recipes/" +:+ fmt_id recipe_id +:+ "/versions/"
               +:+ fmt_id version_id)
            (headers self)) in
  run! raise_for_status response in
  response_json response.

Definition update_recipe_version_comment (recipe_id version_id : ident) (comment : string)
    : M value :=
  let! self := get_self in
  let payload : gmap string value := <["comment" := VStr comment]> ∅ in
  let! response :=
    http (with_json (VDict payload)
            (request PATCH
               (base_url self +:+ "/recipes/" +:+ fmt_id recipe_id +:+ "/versions/"
                  +:+ fmt_id version_id)
               (headers self))) in
  run! raise_for_status response in
  response_json response.

(** [folder_id] is tested with [is not None], the two flags with their truth
    value. *)
Definition get_folder_assets (folder_id : value) (include_test_cases include_data : bool)
    : M value :=
  let! self := get_self in
  let params : gmap string value := ∅ in
  let params := if is_not_None folder_id then <["folder_id" := folder_id]> params else params in
  let params :=
    if include_test_cases
    then <["include_test_cases" := VStr (lower (str_bool include_test_cases))]> params
    else params in
  let params :=
    if include_data
    then <["include_data" := VStr (lower (str_bool include_data))]> params
    else params in
  let! response :=
    http (with_params (VDict params)
            (request GET (base_url self +:+ "/export_manifests/folder_assets") (headers self))) in
  run! raise_for_status response in
  response_json response.

Definition create_export_manifest (export_manifest : value) : M value :=
  let! self := get_self in
  let payload : gmap string value := <["export_manifest" := export_manifest]> ∅ in
  let! response :=
    http (with_json (VDict payload)
            (request POST (base_url self +:+ "/export_manifests") (headers self))) in
  run! raise_for_status response in
  response_json response.

Definition update_export_manifest (manifest_id : ident) (export_manifest : value) : M value :=
  let! self := get_self in
  let payload : gmap string value := <["export_manifest" := export_manifest]> ∅ in
  let! response :=
    http (with_json (VDict payload)
            (request PUT (base_url self +:+ "/export_manifests/" +:+ fmt_id manifest_id)
               (headers self))) in
  run! raise_for_status response in
  response_json response.

Definition get_export_manifest (manifest_id : ident) : M value :=
  let! self := get_self in
  let! response :=
    http (request GET (base_url self +:+ "/export_manifests/" +:+ fmt_id manifest_id)
            (headers self)) in
  run! raise_for_status response in
  response_json response.

Definition delete_export_manifest (manifest_id : ident) : M value :=
  let! self := get_self in
  let! response :=
    http (request DELETE (base_url self +:+ "/export_manifests/" +:+ fmt_id manifest_id)
            (headers self)) in
  run! raise_for_status response in
  response_json response.

Definition export_package (manifest_id : ident) : M value :=
  let! self := get_self in
  let! response :=
    http (request POST (base_url self +:+ "/packages/export/" +:+ fmt_id manifest_id)
            (headers self)) in
  run! raise_for_status response in
  response_json response.

(** [headers={**self.headers, "Content-Type": "application/octet-stream"}]
    builds a new dictionary for this call. *)
Definition import_package (folder_id : ident) (file_bytes : list Byte.byte)
    (restart_recipes include_tags : bool) (folder_id_for_home_assets : value) : M value :=
  let! self := get_self in
  let params : gmap string value :=
    <["include_tags" := VStr (lower (str_bool include_tags))]>
    (<["restart_recipes" := VStr (lower (str_bool restart_recipes))]> ∅) in
  let params :=
    if truthy folder_id_for_home_assets
    then <["folder_id_for_home_assets" := folder_id_for_home_assets]> params
    else params in
  let! response :=
    http (with_content (VBytes file_bytes)
         (with_params (VDict params)
            (request POST (base_url self +:+ "/packages/import/" +:+ fmt_id folder_id)
               (<["Content-Type" := "application/octet-stream"]> (headers self))))) in
  run! raise_for_status response in
  response_json response.

Definition get_package (package_id : ident) : M value :=
  let! self := get_self in
  let! response :=
    http (request GET (base_url self +:+ "/packages/" +:+ fmt_id package_id) (headers self)) in
  run! raise_for_status response in
  response_json response.

(** [return response.content] *)
Definition download_package (package_id : ident) : M value :=
  let! self := get_self in
  let! response :=
    http (with_follow_redirects true
            (request GET (base_url self +:+ "/packages/" +:+ fmt_id package_id +:+ "/download")
               (headers self))) in
  run! raise_for_status response in
  ret (VBytes (resp_content response)).

(** [client.get(..., json=payload)]: a keyword [get] does not have. *)
Definition search_custom_connectors (title : string) : M value :=
  let! self := get_self in
  let payload : gmap string value := <["title" := VStr title]> ∅ in
  let! response :=
    http (with_json (VDict payload)
            (request GET (base_url self +:+ "/custom_connectors/search") (headers self))) in
  run! raise_for_status response in
  response_json response.

Definition get_custom_connector_code (connector_id : ident) : M value :=
  let! self := get_self in
  let! response :=
    http (request GET
            (base_url self +:+ "/custom_connectors/" +:+ fmt_id connector_id +:+ "/code")
            (headers self)) in
  run! raise_for_status response in
  response_json response.

Definition generate_schema_from_json (sample : string) : M value :=
  let! self := get_self in
  let payload : gmap string value := <["sample" := VStr sample]> ∅ in
  let! response :=
    http (with_json (VDict payload)
            (request POST (base_url self +:+ "/sdk/generate_schema/json") (headers self))) in
  run! raise_for_status response in
  response_json response.

Definition generate_schema_from_csv (sample : string) (col_sep : value) : M value :=
  let! self := get_self in
  let payload : gmap string value := <["sample" := VStr sample]> ∅ in
  let payload := if truthy col_sep then <["col_sep" := col_sep]> payload else payload in
  let! response :=
    http (with_json (VDict payload)
            (request POST (base_url self +:+ "/sdk/generate_schema/csv") (headers self))) in
  run! raise_for_status response in
  response_json response.

Definition create_custom_connector (connector : value) : M value :=
  let! self := get_self in
  let! response :=
    http (with_json connector
            (request POST (base_url self +:+ "/custom_connectors") (headers self))) in
  run! raise_for_status response in
  response_json response.

Definition release_custom_connector (connector_id : ident) : M value :=
  let! self := get_self in
  let! response :=
    http (request POST
            (base_url self +:+ "/custom_connectors/" +:+ fmt_id connector_id +:+ "/release")
            (headers self)) in
  run! raise_for_status response in
  response_json response.

Definition share_custom_connector (connector_id : ident) : M value :=
  let! self := get_self in
  let! response :=
    http (request POST
            (base_url self +:+ "/custom_connectors/" +:+ fmt_id connector_id +:+ "/share")
            (headers self)) in
  run! raise_for_status response in
  response_json response.

Definition update_custom_connector (connector_id : ident) (connector : value) : M value :=
  let! self := get_self in
  let! response :=
    http (with_json connector
            (request PUT (base_url self +:+ "/custom_connectors/" +:+ fmt_id connector_id)
               (headers self))) in
  run! raise_for_status response in
  response_json response.

Definition list_connections
    (folder_id parent_id external_id include_runtime_connections includes : value) : M value :=
  let! self := get_self in
  let params : gmap string value := ∅ in
  let params := if truthy folder_id then <["folder_id" := folder_id]> params else params in
  let params := if truthy parent_id then <["parent_id" := parent_id]> params else params in
  let params := if truthy external_id then <["external_id" := external_id]> params else params in
  let params :=
    if truthy include_runtime_connections
    then <["include_runtime_connections" := include_runtime_connections]> params
    else params in
  let params := if truthy includes then <["includes[]" := includes]> params else params in
  let! response :=
    http (with_params (VDict params)
            (request GET (base_url self +:+ "/connections") (headers self))) in
  run! raise_for_status response in
  response_json response.

Definition create_connection (connection : value) : M value :=
  let! self := get_self in
  let! response :=
    http (with_json connection
            (request POST (base_url self +:+ "/connections") (headers self))) in
  run! raise_for_status response in
  response_json response.

Definition update_connection (connection_id : ident) (connection : value) : M value :=
  let! self := get_self in
  let! response :=
    http (with_json connection
            (request PUT (base_url self +:+ "/connections/" +:+ fmt_id connection_id)
               (headers self))) in
  run! raise_for_status response in
  response_json response.

(** [payload = {"force": force} if force else {}] *)
Definition disconnect_connection (connection_id : ident) (force : bool) : M value :=
  let! self := get_self in
  let payload : gmap string value := if force then <["force" := VBool force]> ∅ else ∅ in
  let! response :=
    http (with_json (if truthy (VDict payload) then VDict payload else VNone)
            (request POST
               (base_url self +:+ "/connections/" +:+ fmt_id connection_id +:+ "/disconnect")
               (headers self))) in
  run! raise_for_status response in
  response_json response.

Definition delete_connection (connection_id : ident) : M value :=
  let! self := get_self in
  let! response :=
    http (request DELETE (base_url self +:+ "/connections/" +:+ fmt_id connection_id)
            (headers self)) in
  run! raise_for_status response in
  response_json response.

Definition list_lookup_tables (page per_page : Z) : M value :=
  let! self := get_self in
  let params : gmap string value :=
    <["per_page" := VInt per_page]> (<["page" := VInt page]> ∅) in
  let! response :=
    http (with_params (VDict params)
            (request GET (base_url self +:+ "/lookup_tables") (headers self))) in
  run! raise_for_status response in
  response_json response.

(** [params.update(filters)]: the entries of [filters] win over [page] and
    [per_page]. *)
Definition list_lookup_table_rows (lookup_table_id : ident) (page per_page : Z)
    (filters : option (gmap string value)) : M value :=
  let! self := get_self in
  let params : gmap string value :=
    <["per_page" := VInt per_page]> (<["page" := VInt page]> ∅) in
  let params :=
    match filters with
    | Some f => if truthy (VDict f) then f ∪ params else params
    | None => params
    end in
  let! response :=
    http (with_params (VDict params)
            (request GET
               (base_url self +:+ "/lookup_tables/" +:+ fmt_id lookup_table_id +:+ "/rows")
               (headers self))) in
  run! raise_for_status response in
  response_json response.

Definition lookup_table_row (lookup_table_id : ident) (filters : value) : M value :=
  let! self := get_self in
  let! response :=
    http (with_params filters
            (request GET
               (base_url self +:+ "/lookup_tables/" +:+ fmt_id lookup_table_id +:+ "/lookup")
               (headers self))) in
  run! raise_for_status response in
  response_json response.

Definition get_lookup_table_row (lookup_table_id row_id : ident) : M value :=
  let! self := get_self in
  let! response :=
    http (request GET
            (base_url self +:+ "/lookup_tables/" +:+ fmt_id lookup_table_id +:+ "/rows/"
               +:+ fmt_id row_id)
            (headers self)) in
  run! raise_for_status response in
  response_json response.

Definition add_lookup_table_row (lookup_table_id : ident) (data : value) : M value :=
  let! self := get_self in
  let payload : gmap string value := <["data" := data]> ∅ in
  let! response :=
    http (with_json (VDict payload)
            (request POST
               (base_url self +:+ "/lookup_tables/" +:+ fmt_id lookup_table_id +:+ "/rows")
               (headers self))) in
  run! raise_for_status response in
  response_json response.

Definition create_lookup_table (lookup_table : value) : M value :=
  let! self := get_self in
  let payload : gmap string value := <["lookup_table" := lookup_table]> ∅ in
  let! response :=
    http (with_json (VDict payload)
            (request POST (base_url self +:+ "/lookup_tables") (headers self))) in
  run! raise_for_status response in
  response_json response.

Definition batch_delete_lookup_tables (ids : value) : M value :=
  let! self := get_self in
  let payload : gmap string value := <["ids" := ids]> ∅ in
  let! response :=
    http (with_json (VDict payload)
            (request POST (base_url self +:+ "/lookup_tables/batch_delete") (headers self))) in
  run! raise_for_status response in
  response_json response.

Definition update_lookup_table_row (lookup_table_id row_id : ident) (data : value) : M value :=
  let! self := get_self in
  let payload : gmap string value := <["data" := data]> ∅ in
  let! response :=
    http (with_json (VDict payload)
            (request PUT
               (base_url self +:+ "/lookup_tables/" +:+ fmt_id lookup_table_id +:+ "/rows/"
                  +:+ fmt_id row_id)
               (headers self))) in
  run! raise_for_status response in
  response_json response.

Definition delete_lookup_table_row (lookup_table_id row_id : ident) : M value :=
  let! self := get_self in
  let! response :=
    http (request DELETE
            (base_url self +:+ "/lookup_tables/" +:+ fmt_id lookup_table_id +:+ "/rows/"
               +:+ fmt_id row_id)
            (headers self)) in
  run! raise_for_status response in
  response_json response.

(** *** One constructor per method, to speak of "every operation" *)

Inductive Call :=
  | GetRecipes (include_tags : bool)
  | GetRecipeDetails (recipe_id : ident)
  | StartRecipe (recipe_id : ident)
  | StopRecipe (recipe_id : ident)
  | TestRecipe (recipe_id : ident) (input_data : value)
  | CreateRecipe (recipe_data : value)
  | UpdateRecipe (recipe_id : ident) (recipe_data : value)
  | DeleteRecipe (recipe_id : ident)
  | GetJobs (recipe_id status limit : value)
  | GetJobDetails (job_id : ident)
  | GetFolders
  | GetConnections
  | GetConnectionDetails (connection_id : ident)
  | CopyRecipe (recipe_id : ident) (folder_id : value)
  | ResetRecipeTrigger (recipe_id : ident)
  | UpdateRecipeConnection (recipe_id : ident) (adapter_name : string) (connection_id : Z)
  | PollRecipeNow (recipe_id : ident)
  | GetRecipeVersions (recipe_id : ident) (page per_page : Z)
  | GetRecipeVersionDetails (recipe_id version_id : ident)
  | UpdateRecipeVersionComment (recipe_id version_id : ident) (comment : string)
  | GetFolderAssets (folder_id : value) (include_test_cases include_data : bool)
  | CreateExportManifest (export_manifest : value)
  | UpdateExportManifest (manifest_id : ident) (export_manifest : value)
  | GetExportManifest (manifest_id : ident)
  | DeleteExportManifest (manifest_id : ident)
  | ExportPackage (manifest_id : ident)
  | ImportPackage (folder_id : ident) (file_bytes : list Byte.byte)
      (restart_recipes include_tags : bool) (folder_id_for_home_assets : value)
  | GetPackage (package_id : ident)
  | DownloadPackage (package_id : ident)
  | SearchCustomConnectors (title : string)
  | GetCustomConnectorCode (connector_id : ident)
  | GenerateSchemaFromJson (sample : string)
  | GenerateSchemaFromCsv (sample : string) (col_sep : value)
  | CreateCustomConnector (connector : value)
  | ReleaseCustomConnector (connector_id : ident)
  | ShareCustomConnector (connector_id : ident)
  | UpdateCustomConnector (connector_id : ident) (connector : value)
  | ListConnections
      (folder_id parent_id external_id include_runtime_connections includes : value)
  | CreateConnection (connection : value)
  | UpdateConnection (connection_id : ident) (connection : value)
  | DisconnectConnection (connection_id : ident) (force : bool)
  | DeleteConnection (connection_id : ident)
  | ListLookupTables (page per_page : Z)
  | ListLookupTableRows (lookup_table_id : ident) (page per_page : Z)
      (filters : option (gmap string value))
  | LookupTableRow (lookup_table_id : ident) (filters : value)
  | GetLookupTableRow (lookup_table_id row_id : ident)
  | AddLookupTableRow (lookup_table_id : ident) (data : value)
  | CreateLookupTable (lookup_table : value)
  | BatchDeleteLookupTables (ids : value)
  | UpdateLookupTableRow (lookup_table_id row_id : ident) (data : value)
  | DeleteLookupTableRow (lookup_table_id row_id : ident).

Definition invoke (c : Call) : M value :=
  match c with
  | GetRecipes t => get_recipes t
  | GetRecipeDetails i => get_recipe_details i
  | StartRecipe i => start_recipe i
  | StopRecipe i => stop_recipe i
  | TestRecipe i d => test_recipe i d
  | CreateRecipe d => create_recipe d
  | UpdateRecipe i d => update_recipe i d
  | DeleteRecipe i => delete_recipe i
  | GetJobs r s l => get_jobs r s l
  | GetJobDetails i => get_job_details i
  | GetFolders => get_folders
  | GetConnections => get_connections
  | GetConnectionDetails i => get_connection_details i
  | CopyRecipe i f => copy_recipe i f
  | ResetRecipeTrigger i => reset_recipe_trigger i
  | UpdateRecipeConnection i a k => update_recipe_connection i a k
  | PollRecipeNow i => poll_recipe_now i
  | GetRecipeVersions i p n => get_recipe_versions i p n
  | GetRecipeVersionDetails i v => get_recipe_version_details i v
  | UpdateRecipeVersionComment i v t => update_recipe_version_comment i v t
  | GetFolderAssets f t d => get_folder_assets f t d
  | CreateExportManifest m => create_export_manifest m
  | UpdateExportManifest i m => update_export_manifest i m
  | GetExportManifest i => get_export_manifest i
  | DeleteExportManifest i => delete_export_manifest i
  | ExportPackage i => export_package i
  | ImportPackage i b r t h => import_package i b r t h
  | GetPackage i => get_package i
  | DownloadPackage i => download_package i
  | SearchCustomConnectors t => search_custom_connectors t
  | GetCustomConnectorCode i => get_custom_connector_code i
  | GenerateSchemaFromJson x => generate_schema_from_json x
  | GenerateSchemaFromCsv x c => generate_schema_from_csv x c
  | CreateCustomConnector k => create_custom_connector k
  | ReleaseCustomConnector i => release_custom_connector i
  | ShareCustomConnector i => share_custom_connector i
  | UpdateCustomConnector i k => update_custom_connector i k
  | ListConnections f p e r n => list_connections f p e r n
  | CreateConnection k => create_connection k
  | UpdateConnection i k => update_connection i k
  | DisconnectConnection i f => disconnect_connection i f
  | DeleteConnection i => delete_connection i
  | ListLookupTables p n => list_lookup_tables p n
  | ListLookupTableRows i p n f => list_lookup_table_rows i p n f
  | LookupTableRow i f => lookup_table_row i f
  | GetLookupTableRow i r => get_lookup_table_row i r
  | AddLookupTableRow i d => add_lookup_table_row i d
  | CreateLookupTable t => create_lookup_table t
  | BatchDeleteLookupTables l => batch_delete_lookup_tables l
  | UpdateLookupTableRow i r d => update_lookup_table_row i r d
  | DeleteLookupTableRow i r => delete_lookup_table_row i r
  end.

(** A caller that makes one call after the other, going on after a failure:
    the outcomes, oldest first. *)
Fixpoint session (cs : list Call) (w : World) : list (Outcome value) * World :=
  match cs with
  | [] => ([], w)
  | c :: cs' =>
      let (o, w') := invoke c w in
      let (os, w'') := session cs' w' in
      (o :: os, w'')
  end.

End Methods.
End Client.

(** ** [workato_mcp/models/recipe.py] *)

Module Models.

Record RecipeData := {
  name : string;
  code : string;
  folder_id : option Z;
  description : option string
}.

Record TestRecipeInput := {
  recipe_id : ident;
  input_data : option (gmap string value)
}.

(** [recipe.dict(exclude_none=True)] *)
Definition dict_exclude_none (r : RecipeData) : gmap string value :=
  let d : gmap string value := <["code" := VStr (code r)]> (<["name" := VStr (name r)]> ∅) in
  let d := match folder_id r with Some z => <["folder_id" := VInt z]> d | None => d end in
  match description r with Some t => <["description" := VStr t]> d | None => d end.

(** An [Optional[Dict[str, Any]]] field as a value. *)
Definition opt_dict (o : option (gmap string value)) : value :=
  match o with Some m => VDict m | None => VNone end.

End Models.

(** ** [workato_mcp/tools/*.py] *)

Module Tools.
Section Registry.

Variable send : Request -> Reply.
Variable json_loads : list Byte.byte -> option value.

(** The text Python's [str()] gives for bytes, lists and dictionaries. *)
Variable repr : value -> string.

(** [str(v)], as an f-string field renders a value. *)
Definition py_str (v : value) : string :=
  match v with
  | VNone => "None"
  | VBool b => str_bool b
  | VInt z => pretty z
  | VStr s => s
  | _ => repr v
  end.

(** [f"Found {len(xs)} <what>:\n\n{xs}"] *)
Definition found (what : string) (xs : value) : M value :=
  match py_len xs with
  | Some n =>
      ret (VStr ("Found " +:+ pretty (Z.of_nat n) +:+ " " +:+ what +:+ ":" +:+ nl +:+ nl
                   +:+ py_str xs))
  | None => raise TypeError
  end.

(** *** [tools/recipes.py] *)

Definition list_recipes (include_tags : bool) : M value :=
  let! recipes := Client.get_recipes send json_loads include_tags in
  found "recipes" recipes.

Definition get_recipe (recipe_id : ident) : M value :=
  let! recipe := Client.get_recipe_details send json_loads recipe_id in
  ret (VStr ("Recipe details:" +:+ nl +:+ nl +:+ py_str recipe)).

Definition start_recipe (recipe_id : ident) : M value :=
  let! result := Client.start_recipe send json_loads recipe_id in
  ret (VStr ("Start recipe result: " +:+ py_str result)).

Definition stop_recipe (recipe_id : ident) : M value :=
  let! result := Client.stop_recipe send json_loads recipe_id in
  ret (VStr ("Stop recipe result: " +:+ py_str result)).

Definition test_recipe (input : Models.TestRecipeInput) : M value :=
  let! result := Client.test_recipe send json_loads (Models.recipe_id input)
      (Models.opt_dict (Models.input_data input)) in
  ret (VStr ("Test recipe result: " +:+ py_str result)).

Definition create_recipe (recipe : Models.RecipeData) : M value :=
  let recipe_data := Models.dict_exclude_none recipe in
  let! result := Client.create_recipe send json_loads (VDict recipe_data) in
  ret (VStr ("Created recipe: " +:+ py_str result)).

Definition update_recipe (recipe_id : ident) (recipe : Models.RecipeData) : M value :=
  let recipe_data := Models.dict_exclude_none recipe in
  let! result := Client.update_recipe send json_loads recipe_id (VDict recipe_data) in
  ret (VStr ("Updated recipe: " +:+ py_str result)).

Definition delete_recipe (recipe_id : ident) : M value :=
  let! result := Client.delete_recipe send json_loads recipe_id in
  ret (VStr ("Delete recipe result: " +:+ py_str result)).

Definition copy_recipe (recipe_id : ident) (folder_id : value) : M value :=
  let! result := Client.copy_recipe send json_loads recipe_id folder_id in
  ret (VStr ("Copy recipe result: " +:+ py_str result)).

Definition reset_recipe_trigger (recipe_id : ident) : M value :=
  let! result := Client.reset_recipe_trigger send json_loads recipe_id in
  ret (VStr ("Reset recipe trigger result: " +:+ py_str result)).

Definition update_recipe_connection (recipe_id : ident) (adapter_name : string) (connection_id : Z)
    : M value :=
  let! result := Client.update_recipe_connection send json_loads recipe_id adapter_name connection_id in
  ret (VStr ("Update recipe connection result: " +:+ py_str result)).

Definition poll_recipe_now (recipe_id : ident) : M value :=
  let! result := Client.poll_recipe_now send json_loads recipe_id in
  ret (VStr ("Poll recipe now result: " +:+ py_str result)).

Definition get_recipe_versions (recipe_id : ident) (page per_page : Z) : M value :=
  let! result := Client.get_recipe_versions send json_loads recipe_id page per_page in
  ret (VStr ("Recipe versions: " +:+ py_str result)).

Definition get_recipe_version_details (recipe_id version_id : ident) : M value :=
  let! result := Client.get_recipe_version_details send json_loads recipe_id version_id in
  ret (VStr ("Recipe version details: " +:+ py_str result)).

Definition update_recipe_version_comment (recipe_id version_id : ident) (comment : string)
    : M value :=
  let! result := Client.update_recipe_version_comment send json_loads recipe_id version_id comment in
  ret (VStr ("Update recipe version comment result: " +:+ py_str result)).

(** *** [tools/recipe_lifecycle_management.py] *)

Definition get_folder_assets (folder_id : value) (include_test_cases include_data : bool)
    : M value :=
  let! result := Client.get_folder_assets send json_loads folder_id include_test_cases include_data in
  ret (VStr ("Folder assets: " +:+ py_str result)).

Definition create_export_manifest (export_manifest : value) : M value :=
  let! result := Client.create_export_manifest send json_loads export_manifest in
  ret (VStr ("Created export manifest: " +:+ py_str result)).

Definition update_export_manifest (manifest_id : ident) (export_manifest : value) : M value :=
  let! result := Client.update_export_manifest send json_loads manifest_id export_manifest in
  ret (VStr ("Updated export manifest: " +:+ py_str result)).

Definition get_export_manifest (manifest_id : ident) : M value :=
  let! result := Client.get_export_manifest send json_loads manifest_id in
  ret (VStr ("Export manifest: " +:+ py_str result)).

Definition delete_export_manifest (manifest_id : ident) : M value :=
  let! result := Client.delete_export_manifest send json_loads manifest_id in
  ret (VStr ("Delete export manifest result: " +:+ py_str result)).

Definition export_package (manifest_id : ident) : M value :=
  let! result := Client.export_package send json_loads manifest_id in
  ret (VStr ("Export package result: " +:+ py_str result)).

Definition import_package (folder_id : ident) (file_bytes : list Byte.byte)
    (restart_recipes include_tags : bool) (folder_id_for_home_assets : value)
    : M value :=
  let! result := Client.import_package send json_loads folder_id file_bytes restart_recipes include_tags
      folder_id_for_home_assets in
  ret (VStr ("Import package result: " +:+ py_str result)).

Definition get_package (package_id : ident) : M value :=
  let! result := Client.get_package send json_loads package_id in
  ret (VStr ("Package details: " +:+ py_str result)).

(** The one tool that returns what the client returned, as it is. *)
Definition download_package (package_id : ident) : M value :=
  let! result := Client.download_package send package_id in
  ret result.

(** *** [tools/custom_connector_sdk.py] *)

Definition search_custom_connectors (title : string) : M value :=
  let! result := Client.search_custom_connectors send json_loads title in
  ret (VStr ("Custom connector search result: " +:+ py_str result)).

Definition get_custom_connector_code (connector_id : ident) : M value :=
  let! result := Client.get_custom_connector_code send json_loads connector_id in
  ret (VStr ("Custom connector code: " +:+ py_str result)).

Definition generate_schema_from_json (sample : string) : M value :=
  let! result := Client.generate_schema_from_json send json_loads sample in
  ret (VStr ("Generated schema from JSON: " +:+ py_str result)).

Definition generate_schema_from_csv (sample : string) (col_sep : value) : M value :=
  let! result := Client.generate_schema_from_csv send json_loads sample col_sep in
  ret (VStr ("Generated schema from CSV: " +:+ py_str result)).

Definition create_custom_connector (connector : value) : M value :=
  let! result := Client.create_custom_connector send json_loads connector in
  ret (VStr ("Created custom connector: " +:+ py_str result)).

Definition release_custom_connector (connector_id : ident) : M value :=
  let! result := Client.release_custom_connector send json_loads connector_id in
  ret (VStr ("Release custom connector result: " +:+ py_str result)).

Definition share_custom_connector (connector_id : ident) : M value :=
  let! result := Client.share_custom_connector send json_loads connector_id in
  ret (VStr ("Share custom connector result: " +:+ py_str result)).

Definition update_custom_connector (connector_id : ident) (connector : value) : M value :=
  let! result := Client.update_custom_connector send json_loads connector_id connector in
  ret (VStr ("Updated custom connector: " +:+ py_str result)).

(** *** [tools/connections.py] *)

Definition list_connections (folder_id parent_id external_id include_runtime_connections includes : value)
    : M value :=
  let! result := Client.list_connections send json_loads folder_id parent_id external_id
      include_runtime_connections includes in
  ret (VStr ("Connections: " +:+ py_str result)).

Definition create_connection (connection : value) : M value :=
  let! result := Client.create_connection send json_loads connection in
  ret (VStr ("Created connection: " +:+ py_str result)).

Definition update_connection (connection_id : ident) (connection : value) : M value :=
  let! result := Client.update_connection send json_loads connection_id connection in
  ret (VStr ("Updated connection: " +:+ py_str result)).

Definition disconnect_connection (connection_id : ident) (force : bool) : M value :=
  let! result := Client.disconnect_connection send json_loads connection_id force in
  ret (VStr ("Disconnect connection result: " +:+ py_str result)).

Definition delete_connection (connection_id : ident) : M value :=
  let! result := Client.delete_connection send json_loads connection_id in
  ret (VStr ("Delete connection result: " +:+ py_str result)).

(** *** [tools/lookup_tables.py] *)

Definition list_lookup_tables (page per_page : Z) : M value :=
  let! result := Client.list_lookup_tables send json_loads page per_page in
  ret (VStr ("Lookup tables: " +:+ py_str result)).

Definition list_lookup_table_rows (lookup_table_id : ident) (page per_page : Z)
    (filters : option (gmap string value))
    : M value :=
  let! result := Client.list_lookup_table_rows send json_loads lookup_table_id page per_page filters in
  ret (VStr ("Lookup table rows: " +:+ py_str result)).

Definition lookup_table_row (lookup_table_id : ident) (filters : value) : M value :=
  let! result := Client.lookup_table_row send json_loads lookup_table_id filters in
  ret (VStr ("Lookup table row: " +:+ py_str result)).

Definition get_lookup_table_row (lookup_table_id row_id : ident) : M value :=
  let! result := Client.get_lookup_table_row send json_loads lookup_table_id row_id in
  ret (VStr ("Lookup table row: " +:+ py_str result)).

Definition add_lookup_table_row (lookup_table_id : ident) (data : value) : M value :=
  let! result := Client.add_lookup_table_row send json_loads lookup_table_id data in
  ret (VStr ("Added lookup table row: " +:+ py_str result)).

Definition create_lookup_table (lookup_table : value) : M value :=
  let! result := Client.create_lookup_table send json_loads lookup_table in
  ret (VStr ("Created lookup table: " +:+ py_str result)).

Definition batch_delete_lookup_tables (ids : value) : M value :=
  let! result := Client.batch_delete_lookup_tables send json_loads ids in
  ret (VStr ("Batch delete result: " +:+ py_str result)).

Definition update_lookup_table_row (lookup_table_id row_id : ident) (data : value) : M value :=
  let! result := Client.update_lookup_table_row send json_loads lookup_table_id row_id data in
  ret (VStr ("Updated lookup table row: " +:+ py_str result)).

Definition delete_lookup_table_row (lookup_table_id row_id : ident) : M value :=
  let! result := Client.delete_lookup_table_row send json_loads lookup_table_id row_id in
  ret (VStr ("Delete lookup table row result: " +:+ py_str result)).

(** Modelled from the spec: the "list jobs" tool, which the tests import but
    no module of the package defines.  It delegates to [get_jobs] with the
    three filters and renders the count and the list of the job records, the
    way [list_recipes] does for recipes. *)
Definition list_jobs (recipe_id status limit : value) : M value :=
  let! jobs := Client.get_jobs send json_loads recipe_id status limit in
  found "jobs" jobs.

(** *** One constructor per registered tool *)

Inductive Tool :=
  | ListRecipes (include_tags : bool)
  | GetRecipe (recipe_id : ident)
  | StartRecipe (recipe_id : ident)
  | StopRecipe (recipe_id : ident)
  | TestRecipe (input : Models.TestRecipeInput)
  | CreateRecipe (recipe : Models.RecipeData)
  | UpdateRecipe (recipe_id : ident) (recipe : Models.RecipeData)
  | DeleteRecipe (recipe_id : ident)
  | CopyRecipe (recipe_id : ident) (folder_id : value)
  | ResetRecipeTrigger (recipe_id : ident)
  | UpdateRecipeConnection (recipe_id : ident) (adapter_name : string) (connection_id : Z)
  | PollRecipeNow (recipe_id : ident)
  | GetRecipeVersions (recipe_id : ident) (page : Z) (per_page : Z)
  | GetRecipeVersionDetails (recipe_id : ident) (version_id : ident)
  | UpdateRecipeVersionComment (recipe_id : ident) (version_id : ident) (comment : string)
  | GetFolderAssets (folder_id : value) (include_test_cases : bool) (include_data : bool)
  | CreateExportManifest (export_manifest : value)
  | UpdateExportManifest (manifest_id : ident) (export_manifest : value)
  | GetExportManifest (manifest_id : ident)
  | DeleteExportManifest (manifest_id : ident)
  | ExportPackage (manifest_id : ident)
  | ImportPackage (folder_id : ident) (file_bytes : list Byte.byte)
      (restart_recipes : bool) (include_tags : bool) (folder_id_for_home_assets : value)
  | GetPackage (package_id : ident)
  | DownloadPackage (package_id : ident)
  | SearchCustomConnectors (title : string)
  | GetCustomConnectorCode (connector_id : ident)
  | GenerateSchemaFromJson (sample : string)
  | GenerateSchemaFromCsv (sample : string) (col_sep : value)
  | CreateCustomConnector (connector : value)
  | ReleaseCustomConnector (connector_id : ident)
  | ShareCustomConnector (connector_id : ident)
  | UpdateCustomConnector (connector_id : ident) (connector : value)
  | ListConnections (folder_id : value) (parent_id : value)
      (external_id : value) (include_runtime_connections : value) (includes : value)
  | CreateConnection (connection : value)
  | UpdateConnection (connection_id : ident) (connection : value)
  | DisconnectConnection (connection_id : ident) (force : bool)
  | DeleteConnection (connection_id : ident)
  | ListLookupTables (page : Z) (per_page : Z)
  | ListLookupTableRows (lookup_table_id : ident) (page : Z)
      (per_page : Z) (filters : option (gmap string value))
  | LookupTableRow (lookup_table_id : ident) (filters : value)
  | GetLookupTableRow (lookup_table_id : ident) (row_id : ident)
  | AddLookupTableRow (lookup_table_id : ident) (data : value)
  | CreateLookupTable (lookup_table : value)
  | BatchDeleteLookupTables (ids : value)
  | UpdateLookupTableRow (lookup_table_id : ident) (row_id : ident) (data : value)
  | DeleteLookupTableRow (lookup_table_id : ident) (row_id : ident).

Definition call (t : Tool) : M value :=
  match t with
  | ListRecipes a0 => list_recipes a0
  | GetRecipe a0 => get_recipe a0
  | StartRecipe a0 => start_recipe a0
  | StopRecipe a0 => stop_recipe a0
  | TestRecipe a0 => test_recipe a0
  | CreateRecipe a0 => create_recipe a0
  | UpdateRecipe a0 a1 => update_recipe a0 a1
  | DeleteRecipe a0 => delete_recipe a0
  | CopyRecipe a0 a1 => copy_recipe a0 a1
  | ResetRecipeTrigger a0 => reset_recipe_trigger a0
  | UpdateRecipeConnection a0 a1 a2 => update_recipe_connection a0 a1 a2
  | PollRecipeNow a0 => poll_recipe_now a0
  | GetRecipeVersions a0 a1 a2 => get_recipe_versions a0 a1 a2
  | GetRecipeVersionDetails a0 a1 => get_recipe_version_details a0 a1
  | UpdateRecipeVersionComment a0 a1 a2 => update_recipe_version_comment a0 a1 a2
  | GetFolderAssets a0 a1 a2 => get_folder_assets a0 a1 a2
  | CreateExportManifest a0 => create_export_manifest a0
  | UpdateExportManifest a0 a1 => update_export_manifest a0 a1
  | GetExportManifest a0 => get_export_manifest a0
  | DeleteExportManifest a0 => delete_export_manifest a0
  | ExportPackage a0 => export_package a0
  | ImportPackage a0 a1 a2 a3 a4 => import_package a0 a1 a2 a3 a4
  | GetPackage a0 => get_package a0
  | DownloadPackage a0 => download_package a0
  | SearchCustomConnectors a0 => search_custom_connectors a0
  | GetCustomConnectorCode a0 => get_custom_connector_code a0
  | GenerateSchemaFromJson a0 => generate_schema_from_json a0
  | GenerateSchemaFromCsv a0 a1 => generate_schema_from_csv a0 a1
  | CreateCustomConnector a0 => create_custom_connector a0
  | ReleaseCustomConnector a0 => release_custom_connector a0
  | ShareCustomConnector a0 => share_custom_connector a0
  | UpdateCustomConnector a0 a1 => update_custom_connector a0 a1
  | ListConnections a0 a1 a2 a3 a4 => list_connections a0 a1 a2 a3 a4
  | CreateConnection a0 => create_connection a0
  | UpdateConnection a0 a1 => update_connection a0 a1
  | DisconnectConnection a0 a1 => disconnect_connection a0 a1
  | DeleteConnection a0 => delete_connection a0
  | ListLookupTables a0 a1 => list_lookup_tables a0 a1
  | ListLookupTableRows a0 a1 a2 a3 => list_lookup_table_rows a0 a1 a2 a3
  | LookupTableRow a0 a1 => lookup_table_row a0 a1
  | GetLookupTableRow a0 a1 => get_lookup_table_row a0 a1
  | AddLookupTableRow a0 a1 => add_lookup_table_row a0 a1
  | CreateLookupTable a0 => create_lookup_table a0
  | BatchDeleteLookupTables a0 => batch_delete_lookup_tables a0
  | UpdateLookupTableRow a0 a1 a2 => update_lookup_table_row a0 a1 a2
  | DeleteLookupTableRow a0 a1 => delete_lookup_table_row a0 a1
  end.

(** The client method behind each tool, with the arguments the tool hands
    over. *)
Definition delegate (t : Tool) : Client.Call :=
  match t with
  | ListRecipes a0 => Client.GetRecipes a0
  | GetRecipe a0 => Client.GetRecipeDetails a0
  | StartRecipe a0 => Client.StartRecipe a0
  | StopRecipe a0 => Client.StopRecipe a0
  | TestRecipe a0 => Client.TestRecipe (Models.recipe_id a0) (Models.opt_dict (Models.input_data a0))
  | CreateRecipe a0 => Client.CreateRecipe (VDict (Models.dict_exclude_none a0))
  | UpdateRecipe a0 a1 => Client.UpdateRecipe a0 (VDict (Models.dict_exclude_none a1))
  | DeleteRecipe a0 => Client.DeleteRecipe a0
  | CopyRecipe a0 a1 => Client.CopyRecipe a0 a1
  | ResetRecipeTrigger a0 => Client.ResetRecipeTrigger a0
  | UpdateRecipeConnection a0 a1 a2 => Client.UpdateRecipeConnection a0 a1 a2
  | PollRecipeNow a0 => Client.PollRecipeNow a0
  | GetRecipeVersions a0 a1 a2 => Client.GetRecipeVersions a0 a1 a2
  | GetRecipeVersionDetails a0 a1 => Client.GetRecipeVersionDetails a0 a1
  | UpdateRecipeVersionComment a0 a1 a2 => Client.UpdateRecipeVersionComment a0 a1 a2
  | GetFolderAssets a0 a1 a2 => Client.GetFolderAssets a0 a1 a2
  | CreateExportManifest a0 => Client.CreateExportManifest a0
  | UpdateExportManifest a0 a1 => Client.UpdateExportManifest a0 a1
  | GetExportManifest a0 => Client.GetExportManifest a0
  | DeleteExportManifest a0 => Client.DeleteExportManifest a0
  | ExportPackage a0 => Client.ExportPackage a0
  | ImportPackage a0 a1 a2 a3 a4 => Client.ImportPackage a0 a1 a2 a3 a4
  | GetPackage a0 => Client.GetPackage a0
  | DownloadPackage a0 => Client.DownloadPackage a0
  | SearchCustomConnectors a0 => Client.SearchCustomConnectors a0
  | GetCustomConnectorCode a0 => Client.GetCustomConnectorCode a0
  | GenerateSchemaFromJson a0 => Client.GenerateSchemaFromJson a0
  | GenerateSchemaFromCsv a0 a1 => Client.GenerateSchemaFromCsv a0 a1
  | CreateCustomConnector a0 => Client.CreateCustomConnector a0
  | ReleaseCustomConnector a0 => Client.ReleaseCustomConnector a0
  | ShareCustomConnector a0 => Client.ShareCustomConnector a0
  | UpdateCustomConnector a0 a1 => Client.UpdateCustomConnector a0 a1
  | ListConnections a0 a1 a2 a3 a4 => Client.ListConnections a0 a1 a2 a3 a4
  | CreateConnection a0 => Client.CreateConnection a0
  | UpdateConnection a0 a1 => Client.UpdateConnection a0 a1
  | DisconnectConnection a0 a1 => Client.DisconnectConnection a0 a1
  | DeleteConnection a0 => Client.DeleteConnection a0
  | ListLookupTables a0 a1 => Client.ListLookupTables a0 a1
  | ListLookupTableRows a0 a1 a2 a3 => Client.ListLookupTableRows a0 a1 a2 a3
  | LookupTableRow a0 a1 => Client.LookupTableRow a0 a1
  | GetLookupTableRow a0 a1 => Client.GetLookupTableRow a0 a1
  | AddLookupTableRow a0 a1 => Client.AddLookupTableRow a0 a1
  | CreateLookupTable a0 => Client.CreateLookupTable a0
  | BatchDeleteLookupTables a0 => Client.BatchDeleteLookupTables a0
  | UpdateLookupTableRow a0 a1 a2 => Client.UpdateLookupTableRow a0 a1 a2
  | DeleteLookupTableRow a0 a1 => Client.DeleteLookupTableRow a0 a1
  end.

End Registry.
End Tools.

(** ** [workato_mcp/server.py] *)

Module Server.

Definition required_env_vars : list string := ["WORKATO_API_TOKEN"; "WORKATO_BASE_URL"].

(** [[var for var in required_env_vars if not os.getenv(var)]] *)
Definition missing_vars (env : Env) : list string :=
  List.filter (fun var => negb (truthy (of_opt_str (getenv env var)))) required_env_vars.

(** [sep.join(l)] *)
Fixpoint join (sep : string) (l : list string) : string :=
  match l with
  | [] => ""
  | [x] => x
  | x :: l' => x +:+ sep +:+ join sep l'
  end.

(** The module-level [workato_client = WorkatoClient()] of the five tool
    modules, in the order [server.py] imports them. *)
Record Clients := {
  recipes : WorkatoClient;
  recipe_lifecycle_management : WorkatoClient;
  custom_connector_sdk : WorkatoClient;
  connections : WorkatoClient;
  lookup_tables : WorkatoClient
}.

Definition and_then {A B} (o : Outcome A) (k : A -> Outcome B) : Outcome B :=
  match o with
  | Return a => k a
  | Raise e => Raise e
  end.

(** Importing [server.py]: the imports at its top run the tool modules, each
    of which builds its client; then the environment is validated; then the
    tools are registered. *)
Definition startup (env : Env) : Outcome Clients :=
  and_then (init env None None) (fun c1 =>
  and_then (init env None None) (fun c2 =>
  and_then (init env None None) (fun c3 =>
  and_then (init env None None) (fun c4 =>
  and_then (init env None None) (fun c5 =>
  match missing_vars env with
  | [] =>
      Return {| recipes := c1; recipe_lifecycle_management := c2;
                custom_connector_sdk := c3; connections := c4; lookup_tables := c5 |}
  | _ :: _ =>
      Raise (ValueError ("Missing required environment variables: "
                           +:+ join ", " (missing_vars env)))
  end))))).

End Server.

(** A process that builds a client and then runs a computation on it: what it
    returns and the calls it made to the HTTP library. *)
Definition with_new_client {A} (env : Env) (api_token base_url : option string) (m : M A)
  : Outcome A * list Request :=
  match init env api_token base_url with
  | Raise e => (Raise e, [])
  | Return c => let (o, w) := m (fresh c) in (o, wire w)
  end.

(** * Properties *)

Section Properties.

Variable send : Request -> Reply.
Variable json_loads : list Byte.byte -> option value.
Variable repr : value -> string.

(** ** Vocabulary *)

(** The world after one more call to the HTTP library: the client object is
    the same, the log is one entry longer. *)
Definition sent (req : Request) (w : World) : World :=
  {| client := client w; wire := wire w ++ [req] |}.

(** What a method returns once its request is built: a call the library
    refuses, a connectivity failure and a status outside 2xx are raised,
    otherwise the body is decoded. *)
Definition settle (req : Request) (decode : Response -> Outcome value) : Outcome value :=
  if accepted req
  then match send req with
       | Failed d => Raise (TransportError d)
       | Responded resp =>
           if is_success resp then decode resp else Raise (HTTPStatusError resp)
       end
  else Raise TypeError.
Arguments settle : simpl never.

Definition decode_json (resp : Response) : Outcome value :=
  match json_loads (resp_content resp) with
  | Some v => Return v
  | None => Raise JSONDecodeError
  end.

Definition decode_raw (resp : Response) : Outcome value :=
  Return (VBytes (resp_content resp)).

(** The header set a call is expected to carry. *)
Definition expected_headers (c : Client.Call) (self : WorkatoClient) : gmap string string :=
  match c with
  | Client.ImportPackage _ _ _ _ _ =>
      <["Content-Type" := "application/octet-stream"]> (headers self)
  | _ => headers self
  end.


Definition is_download_call (c : Client.Call) : bool :=
  match c with Client.DownloadPackage _ => true | _ => false end.

Definition is_import_call (c : Client.Call) : bool :=
  match c with Client.ImportPackage _ _ _ _ _ => true | _ => false end.

Definition is_search_call (c : Client.Call) : bool :=
  match c with Client.SearchCustomConnectors _ => true | _ => false end.

(** ** The shape shared by all client methods *)

Lemma exchange_json (req : Request) (w : World) :
  (let! response := Client.http send req in
   run! Client.raise_for_status response in
   Client.response_json json_loads response) w
  = (settle req decode_json, sent req w).
Proof.
  unfold bind, Client.http, settle, sent. cbn.
  destruct (accepted req); [|reflexivity].
  destruct (send req) as [resp|d]; cbn; [|reflexivity].
  unfold Client.raise_for_status, decode_json, Client.response_json.
  destruct (is_success resp); cbn; [|reflexivity].
  destruct (json_loads (resp_content resp)); reflexivity.
Qed.

Lemma exchange_raw (req : Request) (w : World) :
  (let! response := Client.http send req in
   run! Client.raise_for_status response in
   ret (VBytes (resp_content response))) w
  = (settle req decode_raw, sent req w).
Proof.
  unfold bind, Client.http, settle, sent. cbn.
  destruct (accepted req); [|reflexivity].
  destruct (send req) as [resp|d]; cbn; [|reflexivity].
  unfold Client.raise_for_status, decode_raw.
  destruct (is_success resp); reflexivity.
Qed.

Lemma bind_get_self {A} (k : WorkatoClient -> M A) (w : World) :
  (let! self := get_self in k self) w = k (client w) w.
Proof. reflexivity. Qed.

(** Unfolds the method at the head of the goal down to its one exchange. *)
Ltac method_steps :=
  match goal with |- context [ ?f send ] => unfold f end;
  rewrite bind_get_self; cbv zeta;
  first [ rewrite exchange_json | rewrite exchange_raw ].

Lemma settle_non_2xx req decode resp :
  accepted req = true ->
  send req = Responded resp -> is_success resp = false ->
  settle req decode = Raise (HTTPStatusError resp).
Proof. intros Ha Hs Hf. unfold settle. rewrite Ha, Hs, Hf. reflexivity. Qed.

Lemma settle_success req decode resp :
  accepted req = true ->
  send req = Responded resp -> is_success resp = true ->
  settle req decode = decode resp.
Proof. intros Ha Hs Hf. unfold settle. rewrite Ha, Hs, Hf. reflexivity. Qed.

Lemma settle_failed req decode d :
  accepted req = true ->
  send req = Failed d ->
  settle req decode = Raise (TransportError d).
Proof. intros Ha Hs. unfold settle. rewrite Ha, Hs. reflexivity. Qed.

Lemma settle_refused req decode :
  accepted req = false -> settle req decode = Raise TypeError.
Proof. intros Ha. unfold settle. rewrite Ha. reflexivity. Qed.

(** Every method makes exactly one call to the HTTP library, with the header
    set expected of it, leaves the client object as it was, and returns what
    [settle] says. *)
Lemma invoke_settles (c : Client.Call) (w : World) :
  exists req,
    r_headers req = expected_headers c (client w) /\
    Client.invoke send json_loads c w =
      (settle req (match c with
                   | Client.DownloadPackage _ => decode_raw
                   | _ => decode_json
                   end),
       sent req w).
Proof.
  destruct c; cbn [Client.invoke]; method_steps;
    eexists; (split; [|reflexivity]); reflexivity.
Qed.

(** The library accepts the call of every method but the search for custom
    connectors. *)
Lemma invoke_accepted (c : Client.Call) (w : World) :
  exists req,
    Client.invoke send json_loads c w =
      (settle req (match c with
                   | Client.DownloadPackage _ => decode_raw
                   | _ => decode_json
                   end),
       sent req w) /\
    accepted req = negb (is_search_call c).
Proof.
  destruct c; cbn [Client.invoke]; method_steps;
    eexists; (split; [reflexivity|]); reflexivity.
Qed.

(** The request of a call depends on the client object only, not on the log. *)
Lemma invoke_request_stable (c : Client.Call) (w w' : World) :
  client w' = client w ->
  exists req o,
    Client.invoke send json_loads c w = (o, sent req w) /\
    Client.invoke send json_loads c w' = (o, sent req w').
Proof.
  intros Hc.
  destruct c; cbn [Client.invoke]; method_steps;
    rewrite bind_get_self; cbv zeta;
    first [ rewrite exchange_json | rewrite exchange_raw ];
    rewrite Hc; eexists; eexists; split; reflexivity.
Qed.

Ltac head_of t :=
  lazymatch t with
  | ?f _ => head_of f
  | _ => t
  end.

(** A tool makes the call of the client method it delegates to, and lets its
    exception through. *)
Lemma call_delegates (t : Tools.Tool) (w : World) :
  snd (Tools.call send json_loads repr t w)
  = snd (Client.invoke send json_loads (Tools.delegate t) w) /\
  forall e,
    fst (Client.invoke send json_loads (Tools.delegate t) w) = Raise e ->
    fst (Tools.call send json_loads repr t w) = Raise e.
Proof.
  destruct t; cbn [Tools.call Tools.delegate Client.invoke];
    match goal with |- snd ?lhs = _ /\ _ => let h := head_of lhs in unfold h end;
    unfold bind;
    match goal with |- context [ match ?m with _ => _ end ] =>
      destruct m as [[v|e'] w'] end;
    cbn; (split; [|first [ discriminate | intros e H; exact H ]]);
    try reflexivity;
    unfold Tools.found; destruct (py_len v); reflexivity.
Qed.

(** A session leaves the client object as it was. *)
Lemma session_client (cs : list Client.Call) (w : World) :
  client (snd (Client.session send json_loads cs w)) = client w.
Proof.
  revert w. induction cs as [|c cs IH]; intros w; cbn; [reflexivity|].
  destruct (invoke_settles c w) as (req & _ & ->).
  specialize (IH (sent req w)).
  destruct (Client.session send json_loads cs (sent req w)) as [os w''].
  cbn in *. exact IH.
Qed.

(** In a session every call carries the header set expected of it, and the
    world afterwards differs from the one before by the log only. *)
Lemma session_wire (cs : list Client.Call) (w : World) :
  exists reqs,
    snd (Client.session send json_loads cs w)
      = {| client := client w; wire := wire w ++ reqs |} /\
    Forall2 (fun c req => r_headers req = expected_headers c (client w)) cs reqs.
Proof.
  revert w. induction cs as [|c cs IH]; intros w; cbn.
  - exists []. split; [|constructor]. destruct w; cbn. by rewrite app_nil_r.
  - destruct (invoke_settles c w) as (req & Hh & ->).
    destruct (IH (sent req w)) as (reqs & Hw & Hall).
    destruct (Client.session send json_loads cs (sent req w)) as [os w''].
    cbn in *. exists (req :: reqs). split.
    + rewrite Hw. by rewrite <- app_assoc.
    + by constructor.
Qed.

(** ** Failures *)

(** C4.  Whatever client method is called, it makes exactly one call to the
    HTTP library.  The library accepts the call of every method but the search
    for custom connectors, whose call it refuses with a type error, so that
    the transport never answers it.  When the transport answers an accepted
    call with a status outside 2xx, the method raises the status error that
    carries this response (status and body), every registered tool that
    delegates to the method raises the very same exception after the very same
    single call, and any other call made afterwards returns what it would have
    returned without the failure, making the same call. *)
Theorem non_2xx_propagates (c : Client.Call) (w : World) :
  exists req,
    snd (Client.invoke send json_loads c w) = sent req w /\
    (is_search_call c = true ->
     Client.invoke send json_loads c w = (Raise TypeError, sent req w)) /\
    forall resp,
      is_search_call c = false ->
      send req = Responded resp -> is_success resp = false ->
      Client.invoke send json_loads c w = (Raise (HTTPStatusError resp), sent req w) /\
      (forall t, Tools.delegate t = c ->
         Tools.call send json_loads repr t w = (Raise (HTTPStatusError resp), sent req w)) /\
      (forall c2, exists req2 o,
         Client.invoke send json_loads c2 w = (o, sent req2 w) /\
         Client.invoke send json_loads c2 (sent req w) = (o, sent req2 (sent req w))).
Proof.
  destruct (invoke_accepted c w) as (req & Hinv & Hacc).
  exists req. split; [by rewrite Hinv|]. split.
  { intros Hsearch. rewrite Hinv. f_equal. apply settle_refused.
    by rewrite Hacc, Hsearch. }
  intros resp Hsearch Hs Hf.
  assert (Hc : Client.invoke send json_loads c w = (Raise (HTTPStatusError resp), sent req w)).
  { rewrite Hinv. f_equal. apply settle_non_2xx; [|assumption..].
    by rewrite Hacc, Hsearch. }
  split; [exact Hc|]. split.
  - intros t <-.
    destruct (call_delegates t w) as [Hsnd Hfst].
    specialize (Hfst (HTTPStatusError resp)).
    rewrite Hc in Hsnd, Hfst. cbn in Hsnd, Hfst.
    destruct (Tools.call send json_loads repr t w) as [o w']. cbn in *.
    rewrite Hsnd, Hfst; reflexivity.
  - intros c2. apply (invoke_request_stable c2 w (sent req w)). reflexivity.
Qed.

(** ** The client object is never written *)

(** C9.  A client built by the constructor holds the bearer authorization and
    the JSON content type; after any sequence of calls, [import_package]
    included, the world holds the very same client object (token, base URL and
    header set) and only the log has grown; each call of the sequence carried
    the stored header set, except [import_package], whose request alone
    carried it with the content type replaced. *)
Theorem client_never_mutated (env : Env) (tok burl : option string) (c0 : WorkatoClient)
    (cs : list Client.Call) (log : list Request) :
  init env tok burl = Return c0 ->
  headers c0 = <["Content-Type" := "application/json"]>
               (<["Authorization" := "Bearer " +:+ api_token c0]> ∅) /\
  exists reqs,
    snd (Client.session send json_loads cs {| client := c0; wire := log |})
      = {| client := c0; wire := log ++ reqs |} /\
    Forall2 (fun c req =>
               match c with
               | Client.ImportPackage _ _ _ _ _ =>
                   r_headers req
                   = <["Content-Type" := "application/octet-stream"]> (headers c0)
               | _ => r_headers req = headers c0
               end) cs reqs.
Proof.
  intros Hinit. split.
  - unfold init in Hinit.
    destruct (negb _); [discriminate|].
    destruct (py_or (of_opt_str tok) _); try discriminate.
    destruct (py_or (of_opt_str burl) _); try discriminate.
    inversion Hinit; subst; reflexivity.
  - destruct (session_wire cs {| client := c0; wire := log |}) as (reqs & Hw & Hall).
    exists reqs. split; [exact Hw|].
    eapply Forall2_impl; [exact Hall|].
    intros c req Hh; cbn in Hh. destruct c; exact Hh.
Qed.

(** ** Construction and start-up *)

Lemma truthy_nonempty (t : string) : t <> "" -> truthy (VStr t) = true.
Proof. destruct t; [congruence|reflexivity]. Qed.

(** The credential the constructor ends up with: the explicit argument when it
    is a non-empty string, else the environment's. *)
Lemma init_credential (env : Env) (tok burl : option string) (t : string) :
  t <> "" ->
  tok = Some t \/ ((tok = None \/ tok = Some "") /\ env !! "WORKATO_API_TOKEN" = Some t) ->
  init env tok burl =
    Return {| api_token := t;
              base_url := match py_or (of_opt_str burl)
                                  (VStr (getenv_default env "WORKATO_BASE_URL" default_base_url))
                          with VStr u => u | _ => "" end;
              headers := <["Content-Type" := "application/json"]>
                         (<["Authorization" := "Bearer " +:+ t]> ∅) |}.
Proof.
  intros Ht Hav. unfold init, getenv.
  assert (Hor : py_or (of_opt_str tok) (of_opt_str (env !! "WORKATO_API_TOKEN")) = VStr t).
  { destruct Hav as [->|[[->| ->] ->]]; unfold py_or, of_opt_str;
      rewrite ?(truthy_nonempty t Ht); reflexivity. }
  rewrite Hor, (truthy_nonempty t Ht). cbn [negb].
  destruct burl as [u|]; cbn.
  - unfold py_or. destruct (truthy (VStr u)); reflexivity.
  - reflexivity.
Qed.

(** C1.  Without an explicit credential and without one in the environment
    (unset, or empty, which the truth test takes for unset) the constructor
    raises the configuration error that names the missing
    variable, and a process that builds its client first never reaches the
    HTTP library; with a credential (a non-empty string, explicit or from the
    environment) the constructor succeeds and the header set holds the bearer
    authorization built from it and the JSON content type. *)
Theorem construction_needs_credential (env : Env) (tok burl : option string) :
  (tok = None \/ tok = Some "" ->
   env !! "WORKATO_API_TOKEN" = None \/ env !! "WORKATO_API_TOKEN" = Some "" ->
   init env tok burl = Raise (ValueError token_required) /\
   forall (A : Type) (m : M A),
     with_new_client env tok burl m = (Raise (ValueError token_required), [])) /\
  (forall t, t <> "" ->
   tok = Some t \/ ((tok = None \/ tok = Some "") /\ env !! "WORKATO_API_TOKEN" = Some t) ->
   exists c,
     init env tok burl = Return c /\
     api_token c = t /\
     headers c !! "Authorization" = Some ("Bearer " +:+ t) /\
     headers c !! "Content-Type" = Some "application/json" /\
     dom (headers c) = {[ "Authorization"; "Content-Type" ]}).
Proof.
  split.
  - intros Htok Henv.
    assert (Hi : init env tok burl = Raise (ValueError token_required)).
    { unfold init, getenv. destruct Htok as [-> | ->], Henv as [-> | ->]; reflexivity. }
    split; [exact Hi|]. intros A m. unfold with_new_client. by rewrite Hi.
  - intros t Ht Hav. eexists. split; [by apply init_credential|].
    cbn. split; [reflexivity|]. split; [by simplify_map_eq|].
    split; [by simplify_map_eq|]. rewrite !dom_insert_L. set_solver.
Qed.

(** C6, as the code has it.  The constructor takes the base URL as optional:
    with a credential and no base URL, explicit or in the environment, it
    succeeds with the default platform URL.  Start-up of the server is
    stricter.  With the credential variable set and the base-URL variable
    unset or empty it fails with the configuration error that names the
    base-URL variable.  With the credential variable unset or empty it fails
    with the constructor's error about the token, whatever the base URL.  It
    succeeds when both variables are set and non-empty, every tool module then
    holding a client on that base URL. *)
Theorem base_url_default_only_in_constructor (env : Env) (tok : option string) :
  (forall t, t <> "" ->
   tok = Some t \/ ((tok = None \/ tok = Some "") /\ env !! "WORKATO_API_TOKEN" = Some t) ->
   env !! "WORKATO_BASE_URL" = None ->
   exists c, init env tok None = Return c /\ base_url c = default_base_url) /\
  (forall t, t <> "" -> env !! "WORKATO_API_TOKEN" = Some t ->
   env !! "WORKATO_BASE_URL" = None \/ env !! "WORKATO_BASE_URL" = Some "" ->
   Server.startup env
   = Raise (ValueError "Missing required environment variables: WORKATO_BASE_URL")) /\
  (env !! "WORKATO_API_TOKEN" = None \/ env !! "WORKATO_API_TOKEN" = Some "" ->
   Server.startup env = Raise (ValueError token_required)) /\
  (forall t u, t <> "" -> u <> "" ->
   env !! "WORKATO_API_TOKEN" = Some t -> env !! "WORKATO_BASE_URL" = Some u ->
   exists cs,
     Server.startup env = Return cs /\
     base_url (Server.recipes cs) = u /\
     base_url (Server.recipe_lifecycle_management cs) = u /\
     base_url (Server.custom_connector_sdk cs) = u /\
     base_url (Server.connections cs) = u /\
     base_url (Server.lookup_tables cs) = u).
Proof.
  split; [|split; [|split]].
  - intros t Ht Hav Hb. eexists. split; [by apply init_credential|].
    cbn. unfold py_or, getenv_default. rewrite Hb. reflexivity.
  - intros t Ht Htok Hurl.
    unfold Server.startup.
    rewrite (init_credential env None None t Ht) by auto.
    cbn [Server.and_then].
    unfold Server.missing_vars, Server.required_env_vars, getenv. cbn [List.filter].
    rewrite Htok. cbn [of_opt_str]. rewrite (truthy_nonempty t Ht). cbn [negb].
    destruct Hurl as [-> | ->]; reflexivity.
  - intros Henv.
    assert (Hi : init env None None = Raise (ValueError token_required)).
    { unfold init, getenv. destruct Henv as [-> | ->]; reflexivity. }
    unfold Server.startup. rewrite Hi. reflexivity.
  - intros t u Ht Hu Htok Hurl.
    assert (Hi : init env None None =
                 Return {| api_token := t; base_url := u;
                           headers := <["Content-Type" := "application/json"]>
                                      (<["Authorization" := "Bearer " +:+ t]> ∅) |}).
    { rewrite (init_credential env None None t Ht) by auto.
      cbn. unfold py_or, getenv_default. rewrite Hurl. reflexivity. }
    unfold Server.startup. rewrite Hi. cbn [Server.and_then].
    unfold Server.missing_vars, Server.required_env_vars, getenv. cbn.
    rewrite Htok, Hurl. cbn [of_opt_str]. rewrite !truthy_nonempty by assumption.
    cbn. eexists. split; [reflexivity|]. cbn. auto.
Qed.

(** ** Request shapes *)

(** C3.  The create and update operations on recipes, export manifests and
    lookup tables, and the row mutations, send their payload nested under the
    envelope key of the remote endpoint: [recipe], [export_manifest],
    [lookup_table] and [data]; the body holds that one key and nothing else.
    The create-recipe tool hands the recipe descriptor over as such a payload. *)
Theorem envelope_nesting (P : value) (i j : ident) (w : World) :
  let self := client w in
  snd (Client.create_recipe send json_loads P w)
    = sent (with_json (VDict {[ "recipe" := P ]})
              (request POST (base_url self +:+ "/recipes") (headers self))) w /\
  snd (Client.update_recipe send json_loads i P w)
    = sent (with_json (VDict {[ "recipe" := P ]})
              (request PUT (base_url self +:+ "/recipes/" +:+ fmt_id i) (headers self))) w /\
  snd (Client.create_export_manifest send json_loads P w)
    = sent (with_json (VDict {[ "export_manifest" := P ]})
              (request POST (base_url self +:+ "/export_manifests") (headers self))) w /\
  snd (Client.update_export_manifest send json_loads i P w)
    = sent (with_json (VDict {[ "export_manifest" := P ]})
              (request PUT (base_url self +:+ "/export_manifests/" +:+ fmt_id i)
                 (headers self))) w /\
  snd (Client.create_lookup_table send json_loads P w)
    = sent (with_json (VDict {[ "lookup_table" := P ]})
              (request POST (base_url self +:+ "/lookup_tables") (headers self))) w /\
  snd (Client.add_lookup_table_row send json_loads i P w)
    = sent (with_json (VDict {[ "data" := P ]})
              (request POST (base_url self +:+ "/lookup_tables/" +:+ fmt_id i +:+ "/rows")
                 (headers self))) w /\
  snd (Client.update_lookup_table_row send json_loads i j P w)
    = sent (with_json (VDict {[ "data" := P ]})
              (request PUT
                 (base_url self +:+ "/lookup_tables/" +:+ fmt_id i +:+ "/rows/" +:+ fmt_id j)
                 (headers self))) w /\
  forall nm cd,
    snd (Tools.create_recipe send json_loads repr
           {| Models.name := nm; Models.code := cd;
              Models.folder_id := None; Models.description := None |} w)
    = sent (with_json
              (VDict {[ "recipe" := VDict (<["name" := VStr nm]> {[ "code" := VStr cd ]}) ]})
              (request POST (base_url self +:+ "/recipes") (headers self))) w.
Proof.
  cbv zeta. repeat split; try (method_steps; reflexivity).
  intros nm cd. unfold Tools.create_recipe, bind.
  unfold Client.create_recipe. rewrite bind_get_self, exchange_json.
  destruct (settle _ _); cbn; f_equal; f_equal; f_equal; f_equal;
    apply insert_insert_ne; discriminate.
Qed.

(** C10.  The search for custom connectors calls [get] on the search
    endpoint and passes the title as [json={"title": title}], with no query
    parameters.  [get] has no such keyword: for every title and whatever the
    transport would answer, the method raises a type error, and so does the
    tool in front of it. *)
Theorem search_get_with_body_is_refused (title : string) (w : World) :
  let req :=
    {| meth := GET;
       url := base_url (client w) +:+ "/custom_connectors/search";
       r_headers := headers (client w);
       params := VNone;
       json := VDict {[ "title" := VStr title ]};
       content := VNone;
       follow_redirects := false |} in
  Client.search_custom_connectors send json_loads title w = (Raise TypeError, sent req w) /\
  Tools.search_custom_connectors send json_loads repr title w
  = (Raise TypeError, sent req w).
Proof.
  cbv zeta.
  assert (Hc : Client.search_custom_connectors send json_loads title w
               = (Raise TypeError,
                  sent {| meth := GET;
                          url := base_url (client w) +:+ "/custom_connectors/search";
                          r_headers := headers (client w);
                          params := VNone;
                          json := VDict {[ "title" := VStr title ]};
                          content := VNone;
                          follow_redirects := false |} w)).
  { method_steps. rewrite settle_refused by reflexivity. reflexivity. }
  split; [exact Hc|].
  unfold Tools.search_custom_connectors, bind. rewrite Hc. reflexivity.
Qed.

(** ** Results *)




(** C8.  [get_jobs] with recipe 1, status "success" and limit 10 sends one GET
    to the jobs endpoint whose query parameters are exactly these three; when
    the answer is a 2xx response that decodes to a list of job records, the
    list-jobs tool returns a string made of the count of the records and the
    text of the list. *)
Theorem list_jobs_scenario (w : World) :
  let req :=
    {| meth := GET;
       url := base_url (client w) +:+ "/jobs";
       r_headers := headers (client w);
       params := VDict (<["recipe_id" := VInt 1]>
                        (<["status" := VStr "success"]> {[ "limit" := VInt 10 ]}));
       json := VNone;
       content := VNone;
       follow_redirects := false |} in
  snd (Client.get_jobs send json_loads (VInt 1) (VStr "success") (VInt 10) w) = sent req w /\
  forall resp jobs,
    send req = Responded resp -> is_success resp = true ->
    json_loads (resp_content resp) = Some (VList jobs) ->
    Tools.list_jobs send json_loads repr (VInt 1) (VStr "success") (VInt 10) w
    = (Return (VStr ("Found " +:+ pretty (Z.of_nat (length jobs)) +:+ " jobs:" +:+ nl +:+ nl
                       +:+ repr (VList jobs))),
       sent req w).
Proof.
  cbv zeta.
  assert (Hreq : Client.get_jobs send json_loads (VInt 1) (VStr "success") (VInt 10) w
                 = (settle {| meth := GET;
                              url := base_url (client w) +:+ "/jobs";
                              r_headers := headers (client w);
                              params := VDict (<["recipe_id" := VInt 1]>
                                               (<["status" := VStr "success"]>
                                                  {[ "limit" := VInt 10 ]}));
                              json := VNone; content := VNone;
                              follow_redirects := false |} decode_json,
                    sent {| meth := GET;
                            url := base_url (client w) +:+ "/jobs";
                            r_headers := headers (client w);
                            params := VDict (<["recipe_id" := VInt 1]>
                                             (<["status" := VStr "success"]>
                                                {[ "limit" := VInt 10 ]}));
                            json := VNone; content := VNone;
                            follow_redirects := false |} w)).
  { method_steps. reflexivity. }
  split; [by rewrite Hreq|].
  intros resp jobs Hs Hf Hj.
  unfold Tools.list_jobs, bind. rewrite Hreq.
  rewrite (settle_success _ _ resp) by (assumption || reflexivity). unfold decode_json. rewrite Hj.
  reflexivity.
Qed.

(** ** Optional parameters *)

(** C7, as the code has it.  The filters tested by their truth value are
    dropped when they are falsy, zero included, and the call is then the very
    call made without them: [recipe_id], [status] and [limit] of [get_jobs],
    [folder_id] of [copy_recipe] (whose request then has no body) and of
    [list_connections].  [get_folder_assets] tests [folder_id] against [None]:
    any other value, zero included, is sent under the key [folder_id], and
    only [None] is left out. *)
Theorem falsy_filters_dropped (w : World) :
  let self := client w in
  truthy (VInt 0) = false /\
  (forall r s l, truthy r = false ->
     Client.get_jobs send json_loads r s l w = Client.get_jobs send json_loads VNone s l w) /\
  (forall r s l, truthy s = false ->
     Client.get_jobs send json_loads r s l w = Client.get_jobs send json_loads r VNone l w) /\
  (forall r s l, truthy l = false ->
     Client.get_jobs send json_loads r s l w = Client.get_jobs send json_loads r s VNone w) /\
  (forall r s l, exists m,
     snd (Client.get_jobs send json_loads r s l w)
       = sent (with_params (VDict m) (request GET (base_url self +:+ "/jobs") (headers self))) w /\
     m !! "recipe_id" = (if truthy r then Some r else None) /\
     m !! "status" = (if truthy s then Some s else None) /\
     m !! "limit" = (if truthy l then Some l else None)) /\
  (forall i f, truthy f = false ->
     Client.copy_recipe send json_loads i f w = Client.copy_recipe send json_loads i VNone w /\
     snd (Client.copy_recipe send json_loads i f w)
       = sent (request POST (base_url self +:+ "/recipes/" +:+ fmt_id i +:+ "/copy")
                 (headers self)) w) /\
  (forall f p e r n, truthy f = false ->
     Client.list_connections send json_loads f p e r n w
     = Client.list_connections send json_loads VNone p e r n w) /\
  (forall f t d, exists m,
     snd (Client.get_folder_assets send json_loads f t d w)
       = sent (with_params (VDict m)
                 (request GET (base_url self +:+ "/export_manifests/folder_assets")
                    (headers self))) w /\
     m !! "folder_id" = (match f with VNone => None | _ => Some f end)).
Proof.
  cbv zeta. split; [reflexivity|].
  split; [intros r s l H; unfold Client.get_jobs; rewrite H; reflexivity|].
  split; [intros r s l H; unfold Client.get_jobs; rewrite H; reflexivity|].
  split; [intros r s l H; unfold Client.get_jobs; rewrite H; reflexivity|].
  split.
  { intros r s l. eexists. split; [method_steps; reflexivity|].
    destruct (truthy r), (truthy s), (truthy l); by simplify_map_eq. }
  split.
  { intros i f H. split; [unfold Client.copy_recipe; rewrite H; reflexivity|].
    method_steps. rewrite H. reflexivity. }
  split; [intros f p e r n H; unfold Client.list_connections; rewrite H; reflexivity|].
  intros f t d. eexists. split; [method_steps; reflexivity|].
  destruct f, t, d; by simplify_map_eq.
Qed.

(** C2, as the code has it.  In every operation with optional parameters, a
    parameter that is left unset, or is falsy, is absent from the query
    parameters or the body, never sent as a null or an empty string:
    [get_jobs] with only a status sends exactly the status key, [copy_recipe]
    sends no body at all, and so on for [import_package],
    [generate_schema_from_csv], [list_connections] and
    [list_lookup_table_rows]; the flags of [get_recipes], [get_folder_assets]
    and [disconnect_connection] are absent when they are not set.  There are
    two exceptions.  [test_recipe] without input data, or with falsy input
    data, sends the empty JSON object as its body.  [get_folder_assets] leaves
    [folder_id] out only when it is [None]; any other value, falsy or not, is
    sent. *)
Theorem unset_parameters_omitted (w : World) :
  let self := client w in
  snd (Client.get_recipes send json_loads false w)
    = sent (with_params (VDict ∅) (request GET (base_url self +:+ "/recipes") (headers self))) w /\
  (forall r s l, exists m,
     snd (Client.get_jobs send json_loads r s l w)
       = sent (with_params (VDict m) (request GET (base_url self +:+ "/jobs") (headers self))) w /\
     m !! "recipe_id" = (if truthy r then Some r else None) /\
     m !! "status" = (if truthy s then Some s else None) /\
     m !! "limit" = (if truthy l then Some l else None) /\
     forall k, k <> "recipe_id" -> k <> "status" -> k <> "limit" -> m !! k = None) /\
  (forall s, truthy s = true ->
     snd (Client.get_jobs send json_loads VNone s VNone w)
       = sent (with_params (VDict {[ "status" := s ]})
                 (request GET (base_url self +:+ "/jobs") (headers self))) w) /\
  (forall i f, truthy f = false ->
     snd (Client.copy_recipe send json_loads i f w)
       = sent (request POST (base_url self +:+ "/recipes/" +:+ fmt_id i +:+ "/copy")
                 (headers self)) w) /\
  (forall f t d, exists m,
     snd (Client.get_folder_assets send json_loads f t d w)
       = sent (with_params (VDict m)
                 (request GET (base_url self +:+ "/export_manifests/folder_assets")
                    (headers self))) w /\
     m !! "folder_id" = (match f with VNone => None | _ => Some f end) /\
     m !! "include_test_cases" = (if t then Some (VStr "true") else None) /\
     m !! "include_data" = (if d then Some (VStr "true") else None) /\
     forall k, k <> "folder_id" -> k <> "include_test_cases" -> k <> "include_data" ->
               m !! k = None) /\
  (forall i b r t h, truthy h = false ->
     snd (Client.import_package send json_loads i b r t h w)
       = sent (with_content (VBytes b)
              (with_params (VDict (<["restart_recipes" := VStr (lower (str_bool r))]>
                                   {[ "include_tags" := VStr (lower (str_bool t)) ]}))
                 (request POST (base_url self +:+ "/packages/import/" +:+ fmt_id i)
                    (<["Content-Type" := "application/octet-stream"]> (headers self))))) w) /\
  (forall x c, truthy c = false ->
     snd (Client.generate_schema_from_csv send json_loads x c w)
       = sent (with_json (VDict {[ "sample" := VStr x ]})
                 (request POST (base_url self +:+ "/sdk/generate_schema/csv")
                    (headers self))) w) /\
  (forall f p e r n, exists m,
     snd (Client.list_connections send json_loads f p e r n w)
       = sent (with_params (VDict m)
                 (request GET (base_url self +:+ "/connections") (headers self))) w /\
     m !! "folder_id" = (if truthy f then Some f else None) /\
     m !! "parent_id" = (if truthy p then Some p else None) /\
     m !! "external_id" = (if truthy e then Some e else None) /\
     m !! "include_runtime_connections" = (if truthy r then Some r else None) /\
     m !! "includes[]" = (if truthy n then Some n else None) /\
     forall k, k <> "folder_id" -> k <> "parent_id" -> k <> "external_id" ->
               k <> "include_runtime_connections" -> k <> "includes[]" -> m !! k = None) /\
  (forall i,
     snd (Client.disconnect_connection send json_loads i false w)
       = sent (request POST (base_url self +:+ "/connections/" +:+ fmt_id i +:+ "/disconnect")
                 (headers self)) w) /\
  (forall i p n f, f = None \/ f = Some ∅ ->
     snd (Client.list_lookup_table_rows send json_loads i p n f w)
       = sent (with_params (VDict (<["page" := VInt p]> {[ "per_page" := VInt n ]}))
                 (request GET (base_url self +:+ "/lookup_tables/" +:+ fmt_id i +:+ "/rows")
                    (headers self))) w) /\
  (forall i d, truthy d = false ->
     snd (Client.test_recipe send json_loads i d w)
       = sent (with_json (VDict ∅)
                 (request POST (base_url self +:+ "/recipes/" +:+ fmt_id i +:+ "/test_run")
                    (headers self))) w).
Proof.
  cbv zeta.
  split; [method_steps; reflexivity|].
  split.
  { intros r s l. eexists. split; [method_steps; reflexivity|].
    destruct (truthy r), (truthy s), (truthy l);
      (split; [by simplify_map_eq|]);
      (split; [by simplify_map_eq|]);
      (split; [by simplify_map_eq|]);
      intros k H1 H2 H3; by simplify_map_eq. }
  split; [intros s H; method_steps; cbn [truthy]; rewrite H; reflexivity|].
  split; [intros i f H; method_steps; rewrite H; reflexivity|].
  split.
  { intros f t d. eexists. split; [method_steps; reflexivity|].
    destruct f, t, d;
      (split; [by simplify_map_eq|]);
      (split; [by simplify_map_eq|]);
      (split; [by simplify_map_eq|]);
      intros k H1 H2 H3; by simplify_map_eq. }
  split.
  { intros i b r t h H. method_steps. rewrite H. reflexivity. }
  split; [intros x c H; method_steps; rewrite H; reflexivity|].
  split.
  { intros f p e r n. eexists. split; [method_steps; reflexivity|].
    destruct (truthy f), (truthy p), (truthy e), (truthy r), (truthy n);
      (split; [by simplify_map_eq|]);
      (split; [by simplify_map_eq|]);
      (split; [by simplify_map_eq|]);
      (split; [by simplify_map_eq|]);
      (split; [by simplify_map_eq|]);
      intros k H1 H2 H3 H4 H5; by simplify_map_eq. }
  split; [intros i; method_steps; reflexivity|].
  split.
  { intros i p n f [-> | ->]; method_steps; reflexivity. }
  intros i d H. method_steps. unfold py_or. rewrite H. reflexivity.
Qed.

(** * Further properties of the code *)

(** ** What a call returns *)

(** X1.  Whatever method is called other than the download and the search
    for custom connectors, when the transport answers its one call with a 2xx
    status and a body that decodes, the method returns the decoded value as it
    is. *)
Theorem success_returns_decoded (c : Client.Call) (w : World) :
  is_download_call c = false ->
  is_search_call c = false ->
  exists req,
    snd (Client.invoke send json_loads c w) = sent req w /\
    forall resp v,
      send req = Responded resp -> is_success resp = true ->
      json_loads (resp_content resp) = Some v ->
      fst (Client.invoke send json_loads c w) = Return v.
Proof.
  intros Hd Hsearch. destruct (invoke_accepted c w) as (req & Hinv & Hacc).
  rewrite Hsearch in Hacc.
  exists req. rewrite Hinv. split; [reflexivity|].
  intros resp v Hs Hok Hj. cbn [fst].
  rewrite (settle_success _ _ resp Hacc Hs Hok).
  destruct c; try discriminate Hd; unfold decode_json; by rewrite Hj.
Qed.

(** X2.  A 2xx answer whose body is not JSON makes every method other than
    the download and the search for custom connectors raise the decoding
    error, after its one call; the tool in front of the method raises the same
    error.  The download succeeds on such a body. *)
Theorem undecodable_body_raises (c : Client.Call) (w : World) :
  is_search_call c = false ->
  exists req,
    snd (Client.invoke send json_loads c w) = sent req w /\
    forall resp,
      send req = Responded resp -> is_success resp = true ->
      json_loads (resp_content resp) = None ->
      if is_download_call c
      then fst (Client.invoke send json_loads c w) = Return (VBytes (resp_content resp))
      else
        fst (Client.invoke send json_loads c w) = Raise JSONDecodeError /\
        forall t, Tools.delegate t = c ->
          Tools.call send json_loads repr t w = (Raise JSONDecodeError, sent req w).
Proof.
  intros Hsearch. destruct (invoke_accepted c w) as (req & Hinv & Hacc).
  rewrite Hsearch in Hacc.
  exists req. split; [by rewrite Hinv|].
  intros resp Hs Hok Hj.
  assert (Hnd : is_download_call c = false ->
                Client.invoke send json_loads c w = (Raise JSONDecodeError, sent req w)).
  { intros Hd. rewrite Hinv, (settle_success _ _ resp Hacc Hs Hok).
    destruct c; try discriminate Hd; unfold decode_json; by rewrite Hj. }
  destruct (is_download_call c) eqn:Hd.
  - rewrite Hinv, (settle_success _ _ resp Hacc Hs Hok).
    destruct c; try discriminate Hd. reflexivity.
  - specialize (Hnd eq_refl). split; [by rewrite Hnd|].
    intros t <-. destruct (call_delegates t w) as [Hsnd Hfst].
    specialize (Hfst JSONDecodeError). rewrite Hnd in Hsnd, Hfst. cbn in Hsnd, Hfst.
    destruct (Tools.call send json_loads repr t w) as [o w']. cbn in *.
    by rewrite Hsnd, Hfst.
Qed.

(** X3.  When the transport fails to deliver the call of a method other than
    the search for custom connectors, the method raises the transport error
    with the transport's own detail, after that single attempt, and so does
    every tool in front of it. *)
Theorem transport_failure_propagates (c : Client.Call) (w : World) :
  is_search_call c = false ->
  exists req,
    snd (Client.invoke send json_loads c w) = sent req w /\
    forall d,
      send req = Failed d ->
      Client.invoke send json_loads c w = (Raise (TransportError d), sent req w) /\
      forall t, Tools.delegate t = c ->
        Tools.call send json_loads repr t w = (Raise (TransportError d), sent req w).
Proof.
  intros Hsearch. destruct (invoke_accepted c w) as (req & Hinv & Hacc).
  rewrite Hsearch in Hacc.
  exists req. split; [by rewrite Hinv|].
  intros d Hs.
  assert (Hc : Client.invoke send json_loads c w = (Raise (TransportError d), sent req w)).
  { rewrite Hinv. f_equal. by apply settle_failed. }
  split; [exact Hc|].
  intros t <-. destruct (call_delegates t w) as [Hsnd Hfst].
  specialize (Hfst (TransportError d)). rewrite Hc in Hsnd, Hfst. cbn in Hsnd, Hfst.
  destruct (Tools.call send json_loads repr t w) as [o w']. cbn in *.
  by rewrite Hsnd, Hfst.
Qed.

(** ** What a request looks like *)

(** X4.  The URL argument of every call the client makes to the HTTP library
    is the base URL held by the client followed by a path that starts with a
    slash.  Where the library goes from there when it follows a redirect is
    not part of the statement. *)
Theorem requests_target_base_url (c : Client.Call) (w : World) :
  exists req path,
    snd (Client.invoke send json_loads c w) = sent req w /\
    url req = base_url (client w) +:+ String "/" path.
Proof.
  destruct c; cbn [Client.invoke]; method_steps;
    eexists; eexists; (split; [reflexivity|]); reflexivity.
Qed.

(** X5.  Only [import_package] passes a binary body, and that call passes no
    JSON body; only [download_package] asks the library to follow redirects. *)
Theorem binary_and_redirect_only_where_needed (c : Client.Call) (w : World) :
  exists req,
    snd (Client.invoke send json_loads c w) = sent req w /\
    (content req <> VNone <-> is_import_call c = true) /\
    (content req <> VNone -> json req = VNone) /\
    follow_redirects req = is_download_call c.
Proof.
  destruct c; cbn [Client.invoke]; method_steps;
    eexists; (split; [reflexivity|]); cbn;
    (split; [split; intros H; try discriminate; try congruence|]);
    (split; [intros H; try congruence; reflexivity|]); reflexivity.
Qed.


(** X7.  A client built by the constructor passes its bearer token with
    every call it makes to the HTTP library, [import_package] included: the
    [headers=] argument of each call of any session holds the authorization
    header of construction; and each method call makes one call to the
    library.  What the library sends when it follows a redirect is not part of
    the statement. *)
Theorem authorization_on_every_request (env : Env) (tok burl : option string)
    (c0 : WorkatoClient) (cs : list Client.Call) (log : list Request) :
  init env tok burl = Return c0 ->
  exists reqs,
    wire (snd (Client.session send json_loads cs {| client := c0; wire := log |}))
      = (log ++ reqs)%list /\
    length reqs = length cs /\
    Forall (fun req => r_headers req !! "Authorization" = Some ("Bearer " +:+ api_token c0))
           reqs.
Proof.
  intros Hinit.
  assert (Hh : headers c0 !! "Authorization" = Some ("Bearer " +:+ api_token c0)).
  { unfold init in Hinit.
    destruct (negb _); [discriminate|].
    destruct (py_or (of_opt_str tok) _); try discriminate.
    destruct (py_or (of_opt_str burl) _); try discriminate.
    inversion Hinit; subst; cbn. by simplify_map_eq. }
  destruct (session_wire cs {| client := c0; wire := log |}) as (reqs & Hw & Hall).
  exists reqs. rewrite Hw. split; [reflexivity|].
  split; [symmetry; by eapply Forall2_length|].
  cbn in Hall. clear Hw. induction Hall as [|c req cs' reqs' Hc _ IH]; constructor; [|exact IH].
  rewrite Hc. destruct c; cbn; try exact Hh. by rewrite lookup_insert_ne.
Qed.

(** ** The constructor and start-up, case by case *)

(** X9.  The base URL of a constructed client: an explicit non-empty argument
    wins over the environment; otherwise the environment variable is taken as
    it is, the empty string included; the default applies only when the
    variable is unset. *)
Theorem base_url_resolution (env : Env) (tok burl : option string) (c : WorkatoClient) :
  init env tok burl = Return c ->
  (forall u, u <> "" -> burl = Some u -> base_url c = u) /\
  (burl = None \/ burl = Some "" ->
   forall e, env !! "WORKATO_BASE_URL" = Some e -> base_url c = e) /\
  (burl = None \/ burl = Some "" ->
   env !! "WORKATO_BASE_URL" = None -> base_url c = default_base_url).
Proof.
  intros Hinit. unfold init in Hinit.
  destruct (negb _); [discriminate|].
  destruct (py_or (of_opt_str tok) _); try discriminate.
  destruct (py_or (of_opt_str burl) _) as [| | |u'| | |] eqn:Hu; try discriminate.
  inversion Hinit; subst; clear Hinit. cbn [base_url].
  unfold py_or, getenv_default in Hu.
  split; [|split].
  - intros u Hne ->. cbn [of_opt_str] in Hu. rewrite (truthy_nonempty u Hne) in Hu.
    congruence.
  - intros [-> | ->] e He; cbn in Hu; rewrite He in Hu; congruence.
  - intros [-> | ->] He; cbn in Hu; rewrite He in Hu; congruence.
Qed.

(** X10.  The constructor succeeds exactly when a non-empty credential is
    given, explicitly or by the environment; its only failure is the
    configuration error about the token, whatever the base URL is. *)
Theorem init_fails_only_without_token (env : Env) (tok burl : option string) :
  ((exists c, init env tok burl = Return c) <->
   (exists t, t <> "" /\
      (tok = Some t \/
       ((tok = None \/ tok = Some "") /\ env !! "WORKATO_API_TOKEN" = Some t)))) /\
  (forall e, init env tok burl = Raise e -> e = ValueError token_required).
Proof.
  assert (Hcases :
            (exists t, t <> "" /\
               (tok = Some t \/
                ((tok = None \/ tok = Some "") /\ env !! "WORKATO_API_TOKEN" = Some t))) \/
            ((tok = None \/ tok = Some "") /\
             (env !! "WORKATO_API_TOKEN" = None \/ env !! "WORKATO_API_TOKEN" = Some ""))).
  { destruct tok as [[|a t]|].
    - destruct (env !! "WORKATO_API_TOKEN") as [[|a' t']|]; eauto 10.
      left. exists (String a' t'). split; [discriminate|eauto].
    - left. exists (String a t). split; [discriminate|eauto].
    - destruct (env !! "WORKATO_API_TOKEN") as [[|a' t']|]; eauto 10.
      left. exists (String a' t'). split; [discriminate|eauto]. }
  destruct Hcases as [(t & Ht & Hav) | [Htok Henv]].
  - rewrite (init_credential env tok burl t Ht Hav).
    split; [|discriminate]. split; eauto.
  - assert (Hi : init env tok burl = Raise (ValueError token_required)).
    { unfold init, getenv. destruct Htok as [-> | ->], Henv as [-> | ->]; reflexivity. }
    rewrite Hi. split; [|congruence]. split.
    + intros [c Hc]. discriminate.
    + intros (t & Ht & [-> | [_ He]]).
      * destruct Htok as [Hn | Hs]; [discriminate|]. congruence.
      * destruct Henv as [Hn | Hs]; congruence.
Qed.

(** X11.  Start-up of the server has three outcomes.  Without a non-empty
    credential variable the tool modules fail to build their clients while
    they are imported, with the constructor's error.  With it and without a
    non-empty base-URL variable the validation fails, and its message names
    the base-URL variable alone.  With both, start-up succeeds and the five
    tool modules hold equal clients. *)
Theorem startup_outcomes (env : Env) :
  (env !! "WORKATO_API_TOKEN" = None \/ env !! "WORKATO_API_TOKEN" = Some "" ->
   Server.startup env = Raise (ValueError token_required)) /\
  (forall t, t <> "" -> env !! "WORKATO_API_TOKEN" = Some t ->
   env !! "WORKATO_BASE_URL" = None \/ env !! "WORKATO_BASE_URL" = Some "" ->
   Server.startup env
   = Raise (ValueError "Missing required environment variables: WORKATO_BASE_URL")) /\
  (forall cs, Server.startup env = Return cs ->
   init env None None = Return (Server.recipes cs) /\
   Server.recipe_lifecycle_management cs = Server.recipes cs /\
   Server.custom_connector_sdk cs = Server.recipes cs /\
   Server.connections cs = Server.recipes cs /\
   Server.lookup_tables cs = Server.recipes cs /\
   base_url (Server.recipes cs) <> "").
Proof.
  split; [|split].
  - intros Henv.
    assert (Hi : init env None None = Raise (ValueError token_required)).
    { unfold init, getenv. destruct Henv as [-> | ->]; reflexivity. }
    unfold Server.startup. rewrite Hi. reflexivity.
  - intros t Ht Htok Hurl.
    unfold Server.startup.
    rewrite (init_credential env None None t Ht) by auto.
    cbn [Server.and_then].
    unfold Server.missing_vars, Server.required_env_vars, getenv. cbn [List.filter].
    rewrite Htok. cbn [of_opt_str]. rewrite (truthy_nonempty t Ht). cbn [negb].
    destruct Hurl as [-> | ->]; reflexivity.
  - intros cs Hs. unfold Server.startup in Hs.
    destruct (init env None None) as [c|e] eqn:Hi; cbn [Server.and_then] in Hs;
      [|discriminate].
    destruct (Server.missing_vars env) as [|x l] eqn:Hm; [|discriminate].
    inversion Hs; subst; clear Hs. cbn.
    repeat split; try reflexivity.
    intros Hb.
    assert (Hu : env !! "WORKATO_BASE_URL" = None \/ env !! "WORKATO_BASE_URL" = Some "").
    { destruct (env !! "WORKATO_BASE_URL") as [e|] eqn:He; [|by left].
      right. f_equal.
      destruct (base_url_resolution env None None c Hi) as (_ & Hfrom & _).
      rewrite <- (Hfrom (or_introl eq_refl) e He). exact Hb. }
    unfold Server.missing_vars, Server.required_env_vars, getenv in Hm.
    cbn [List.filter] in Hm.
    destruct (negb (truthy (of_opt_str (env !! "WORKATO_API_TOKEN")))); [discriminate|].
    destruct Hu as [Hu | Hu]; rewrite Hu in Hm; discriminate.
Qed.

(** ** Payloads *)

Lemma truthy_dict (m : gmap string value) :
  truthy (VDict m) = false <-> m = ∅.
Proof.
  cbn. rewrite <- map_to_list_empty_iff.
  destruct (map_to_list m); split; congruence.
Qed.

Lemma truthy_dict_insert (k : string) (v : value) (m : gmap string value) :
  truthy (VDict (<[k := v]> m)) = true.
Proof.
  destruct (truthy (VDict (<[k := v]> m))) eqn:H; [reflexivity|].
  apply truthy_dict in H. by apply insert_non_empty in H.
Qed.

(** X12.  The dictionary made of a recipe descriptor always holds the name
    and the code, holds the folder and the description exactly when they are
    given, and holds nothing else; in particular no value in it is [None].
    The create-recipe tool sends this dictionary under the [recipe] key. *)
Theorem recipe_dict_excludes_none (r : Models.RecipeData) (w : World) :
  let d := Models.dict_exclude_none r in
  d !! "name" = Some (VStr (Models.name r)) /\
  d !! "code" = Some (VStr (Models.code r)) /\
  d !! "folder_id" = VInt <$> Models.folder_id r /\
  d !! "description" = VStr <$> Models.description r /\
  (forall k v, d !! k = Some v ->
     v <> VNone /\ In k ["name"; "code"; "folder_id"; "description"]) /\
  snd (Tools.create_recipe send json_loads repr r w)
    = sent (with_json (VDict {[ "recipe" := VDict d ]})
              (request POST (base_url (client w) +:+ "/recipes") (headers (client w)))) w.
Proof.
  cbv zeta. unfold Models.dict_exclude_none.
  destruct r as [nm cd [fid|] [ds|]]; cbn [Models.name Models.code Models.folder_id
                                            Models.description];
    (split; [by simplify_map_eq|]); (split; [by simplify_map_eq|]);
    (split; [by simplify_map_eq|]); (split; [by simplify_map_eq|]);
    (split;
     [ intros k v H;
       repeat (apply lookup_insert_Some in H;
               destruct H as [[<- <-]|[? H]]; [split; [discriminate|cbn; tauto]|]);
       by rewrite lookup_empty in H
     | unfold Tools.create_recipe, bind, Client.create_recipe;
       rewrite bind_get_self, exchange_json;
       unfold Models.dict_exclude_none; cbn; by destruct (settle _ _) ]).
Qed.

(** X13.  The test-recipe tool always sends a JSON object as the body: the
    input data of the request when there is one, the empty object otherwise. *)
Theorem test_recipe_tool_body (input : Models.TestRecipeInput) (w : World) :
  snd (Tools.test_recipe send json_loads repr input w)
  = sent (with_json (VDict (default ∅ (Models.input_data input)))
            (request POST
               (base_url (client w) +:+ "/recipes/" +:+ fmt_id (Models.recipe_id input)
                  +:+ "/test_run")
               (headers (client w)))) w.
Proof.
  unfold Tools.test_recipe, bind, Client.test_recipe.
  rewrite bind_get_self, exchange_json.
  assert (Hb : py_or (Models.opt_dict (Models.input_data input)) (VDict ∅)
               = VDict (default ∅ (Models.input_data input))).
  { destruct (Models.input_data input) as [m|]; [|reflexivity].
    cbn [Models.opt_dict default]. unfold py_or.
    destruct (truthy (VDict m)) eqn:Ht; [reflexivity|].
    apply truthy_dict in Ht. by rewrite Ht. }
  rewrite Hb. by destruct (settle _ _).
Qed.

(** X14.  In [list_lookup_table_rows] the filters are merged over the paging
    parameters: every entry of the filters is sent as it is, a filter named
    [page] or [per_page] replaces the paging argument, and the paging
    arguments are sent under their keys otherwise. *)
Theorem filters_override_pagination (i : ident) (p n : Z) (f : gmap string value)
    (w : World) :
  exists m,
    snd (Client.list_lookup_table_rows send json_loads i p n (Some f) w)
      = sent (with_params (VDict m)
                (request GET
                   (base_url (client w) +:+ "/lookup_tables/" +:+ fmt_id i +:+ "/rows")
                   (headers (client w)))) w /\
    (forall k v, f !! k = Some v -> m !! k = Some v) /\
    (f !! "page" = None -> m !! "page" = Some (VInt p)) /\
    (f !! "per_page" = None -> m !! "per_page" = Some (VInt n)) /\
    (forall k, k <> "page" -> k <> "per_page" -> m !! k = f !! k).
Proof.
  eexists. split; [method_steps; reflexivity|].
  destruct (truthy (VDict f)) eqn:Ht.
  - split; [intros k v H; by apply lookup_union_Some_l|].
    split; [intros H; rewrite lookup_union_r by exact H; by simplify_map_eq|].
    split; [intros H; rewrite lookup_union_r by exact H; by simplify_map_eq|].
    intros k H1 H2. rewrite lookup_union_l; [reflexivity|by simplify_map_eq].
  - apply truthy_dict in Ht. subst f.
    split; [intros k v H; by rewrite lookup_empty in H|].
    split; [intros _; by simplify_map_eq|].
    split; [intros _; by simplify_map_eq|].
    intros k H1 H2. by simplify_map_eq.
Qed.

(** X15.  Boolean flags travel as the lowercase words: [import_package]
    always sends both of its flags, as "true" or "false", and its optional
    folder only when it is truthy; [get_folder_assets] sends a flag, as
    "true", only when the flag is set. *)
Theorem flags_are_lowercase_words (w : World) :
  (forall i b r t h, exists m,
     snd (Client.import_package send json_loads i b r t h w)
       = sent (with_content (VBytes b)
              (with_params (VDict m)
                 (request POST (base_url (client w) +:+ "/packages/import/" +:+ fmt_id i)
                    (<["Content-Type" := "application/octet-stream"]>
                       (headers (client w)))))) w /\
     m !! "restart_recipes" = Some (VStr (if r then "true" else "false")) /\
     m !! "include_tags" = Some (VStr (if t then "true" else "false")) /\
     m !! "folder_id_for_home_assets" = (if truthy h then Some h else None)) /\
  (forall f t d, exists m,
     snd (Client.get_folder_assets send json_loads f t d w)
       = sent (with_params (VDict m)
                 (request GET (base_url (client w) +:+ "/export_manifests/folder_assets")
                    (headers (client w)))) w /\
     m !! "include_test_cases" = (if t then Some (VStr "true") else None) /\
     m !! "include_data" = (if d then Some (VStr "true") else None)).
Proof.
  split.
  - intros i b r t h. eexists. split; [method_steps; reflexivity|].
    destruct r, t, (truthy h); repeat split; by simplify_map_eq.
  - intros f t d. eexists. split; [method_steps; reflexivity|].
    destruct f, t, d; split; by simplify_map_eq.
Qed.

(** X16.  The two operations with an optional body never send an empty
    object: [copy_recipe] sends exactly the folder when it is truthy and no
    body otherwise, [disconnect_connection] sends exactly the force flag when
    it is set and no body otherwise. *)
Theorem optional_body_absent_or_exact (i : ident) (w : World) :
  (forall f,
     snd (Client.copy_recipe send json_loads i f w)
     = sent (with_json (if truthy f then VDict {[ "folder_id" := f ]} else VNone)
               (request POST (base_url (client w) +:+ "/recipes/" +:+ fmt_id i +:+ "/copy")
                  (headers (client w)))) w) /\
  (forall force,
     snd (Client.disconnect_connection send json_loads i force w)
     = sent (with_json (if force then VDict {[ "force" := VBool true ]} else VNone)
               (request POST
                  (base_url (client w) +:+ "/connections/" +:+ fmt_id i +:+ "/disconnect")
                  (headers (client w)))) w).
Proof.
  split.
  - intros f. method_steps. cbn [snd].
    destruct (truthy f); [|reflexivity].
    by rewrite truthy_dict_insert.
  - intros force. method_steps. cbn [snd].
    destruct force; [|reflexivity].
    by rewrite truthy_dict_insert.
Qed.

(** ** The tools *)

(** X17.  The list-recipes tool counts what the platform returned: the
    elements of a list, the keys of an object.  When the decoded answer has no
    length, the tool raises a type error, the request having been made. *)
Theorem list_recipes_counts (include_tags : bool) (w : World) :
  let req :=
    with_params
      (VDict (if include_tags then {[ "includes[]" := VStr "tags" ]} else ∅))
      (request GET (base_url (client w) +:+ "/recipes") (headers (client w))) in
  forall resp v,
    send req = Responded resp -> is_success resp = true ->
    json_loads (resp_content resp) = Some v ->
    Tools.list_recipes send json_loads repr include_tags w
    = (match py_len v with
       | Some k =>
           Return (VStr ("Found " +:+ pretty (Z.of_nat k) +:+ " recipes:" +:+ nl +:+ nl
                           +:+ Tools.py_str repr v))
       | None => Raise TypeError
       end,
       sent req w) /\
    (forall l, v = VList l -> py_len v = Some (length l)) /\
    (forall m, v = VDict m -> py_len v = Some (size m)) /\
    (v = VNone \/ (exists b, v = VBool b) \/ (exists z, v = VInt z) -> py_len v = None).
Proof.
  cbv zeta. intros resp v Hs Hok Hj.
  split.
  - unfold Tools.list_recipes, bind, Client.get_recipes.
    rewrite bind_get_self, exchange_json.
    assert (Hp : (if include_tags
                  then <["includes[]" := VStr "tags"]> (∅ : gmap string value)
                  else ∅)
                 = (if include_tags then {[ "includes[]" := VStr "tags" ]} else ∅))
      by (destruct include_tags; reflexivity).
    cbv zeta. rewrite Hp.
    rewrite (settle_success _ _ resp) by (assumption || (by destruct include_tags)).
    unfold decode_json. rewrite Hj.
    unfold Tools.found. destruct (py_len v); reflexivity.
  - split; [by intros l ->|]. split; [by intros m ->|].
    intros [-> | [[b ->] | [z ->]]]; reflexivity.
Qed.

(** X18.  A tool has no failure of its own, apart from the type error of the
    list-recipes count: whenever a tool raises, its client method raised the
    same exception, or the tool is [list_recipes] and the value returned by
    the client has no length. *)
Theorem tools_add_no_failures (t : Tools.Tool) (w : World) (e : exn) :
  fst (Tools.call send json_loads repr t w) = Raise e ->
  fst (Client.invoke send json_loads (Tools.delegate t) w) = Raise e \/
  (exists b v,
     t = Tools.ListRecipes b /\ e = TypeError /\
     fst (Client.invoke send json_loads (Tools.delegate t) w) = Return v /\
     py_len v = None).
Proof.
  destruct t; cbn [Tools.call Tools.delegate Client.invoke];
    match goal with |- fst ?lhs = _ -> _ => let h := head_of lhs in unfold h end;
    unfold bind;
    match goal with |- context [ match ?m with _ => _ end ] =>
      destruct m as [[v|e'] w'] end;
    cbn [fst]; try (intros H; left; exact H); try discriminate.
  unfold Tools.found. destruct (py_len v) eqn:Hl; [discriminate|].
  cbn. intros H. inversion H; subst. right. eauto 10.
Qed.

(** ** Identifiers in paths *)

(** X19.  Identifiers are written into the path as they are.  Two different
    integer identifiers give two different recipe URLs; a string identifier
    is not escaped, so one that holds a slash reaches another endpoint: the
    details of the recipe named "<n>/versions" are asked at the URL of the
    versions of recipe [n]. *)
Theorem identifiers_inserted_verbatim (w : World) :
  (forall z1 z2 req1 req2,
     snd (Client.get_recipe_details send json_loads (IdInt z1) w) = sent req1 w ->
     snd (Client.get_recipe_details send json_loads (IdInt z2) w) = sent req2 w ->
     url req1 = url req2 -> z1 = z2) /\
  (forall z p n, exists req1 req2,
     snd (Client.get_recipe_details send json_loads (IdStr (pretty z +:+ "/versions")) w)
       = sent req1 w /\
     snd (Client.get_recipe_versions send json_loads (IdInt z) p n w) = sent req2 w /\
     meth req1 = meth req2 /\
     url req1 = url req2).
Proof.
  split.
  - intros z1 z2 req1 req2.
    unfold Client.get_recipe_details. rewrite !bind_get_self, !exchange_json.
    cbn [snd]. unfold sent. intros H1 H2 Hu.
    inversion H1 as [E1]. inversion H2 as [E2].
    apply app_inj_tail in E1 as [_ <-]. apply app_inj_tail in E2 as [_ <-].
    cbn [url request fmt_id] in Hu.
    apply (inj (String.append (base_url (client w)))) in Hu.
    apply (inj (String.append "/recipes/")) in Hu.
    by apply (inj pretty) in Hu.
  - intros z p n. eexists. eexists.
    split; [method_steps; reflexivity|].
    split; [method_steps; reflexivity|].
    split; reflexivity.
Qed.

End Properties.

(** * The statements on examples *)

Lemma construction_needs_credential_witness :
  init ∅ None None = Raise (ValueError token_required) /\
  exists c,
    init sample_env None None = Return c /\
    api_token c = "test_token" /\
    headers c !! "Authorization" = Some "Bearer test_token" /\
    headers c !! "Content-Type" = Some "application/json".
Proof.
  split.
  - destruct (construction_needs_credential ∅ None None) as [Hno _].
    destruct (Hno (or_introl eq_refl) (or_introl eq_refl)) as [H _]. exact H.
  - destruct (construction_needs_credential sample_env None None) as [_ Hav].
    destruct (Hav "test_token" ltac:(discriminate)
                  (or_intror (conj (or_introl eq_refl) eq_refl)))
      as (c & Hi & Ht & Ha & Hc & _).
    exists c. repeat split; assumption.
Defined.

Lemma non_2xx_propagates_witness :
  fst (Client.invoke (answer 500 body_ok) sample_loads (Client.GetRecipeDetails (IdInt 1))
         (fresh sample_client))
    = Raise (HTTPStatusError error_response) /\
  fst (Tools.call (answer 500 body_ok) sample_loads sample_repr (Tools.GetRecipe (IdInt 1))
         (fresh sample_client))
    = Raise (HTTPStatusError error_response).
Proof.
  destruct (non_2xx_propagates (answer 500 body_ok) sample_loads sample_repr
              (Client.GetRecipeDetails (IdInt 1)) (fresh sample_client))
    as (req & _ & _ & H).
  destruct (H error_response eq_refl eq_refl eq_refl) as (Hc & Ht & _).
  split.
  - rewrite Hc. reflexivity.
  - rewrite (Ht (Tools.GetRecipe (IdInt 1)) eq_refl). reflexivity.
Defined.

Lemma client_never_mutated_witness :
  exists reqs,
    snd (Client.session (answer 200 body_ok) sample_loads
           [Client.ImportPackage (IdInt 5) [Byte.x50; Byte.x4b] false false VNone;
            Client.GetRecipes false]
           (fresh sample_client))
      = {| client := sample_client; wire := reqs |} /\
    length reqs = 2%nat.
Proof.
  destruct (client_never_mutated (answer 200 body_ok) sample_loads sample_env None None
              sample_client
              [Client.ImportPackage (IdInt 5) [Byte.x50; Byte.x4b] false false VNone;
               Client.GetRecipes false]
              [] eq_refl)
    as (_ & reqs & Hw & Hall).
  exists reqs. split; [exact Hw|].
  apply Forall2_length in Hall. symmetry. exact Hall.
Defined.


Lemma list_jobs_scenario_witness :
  fst (Tools.list_jobs (answer 200 body_jobs) sample_loads sample_repr
         (VInt 1) (VStr "success") (VInt 10) (fresh sample_client))
  = Return (VStr ("Found 2 jobs:" +:+ nl +:+ nl +:+ "[...]")).
Proof.
  destruct (list_jobs_scenario (answer 200 body_jobs) sample_loads sample_repr
              (fresh sample_client)) as [_ H].
  rewrite (H jobs_response _ eq_refl eq_refl eq_refl). reflexivity.
Defined.

Lemma base_url_default_only_in_constructor_witness :
  (exists c, init token_only_env None None = Return c /\ base_url c = default_base_url) /\
  Server.startup token_only_env
  = Raise (ValueError "Missing required environment variables: WORKATO_BASE_URL") /\
  Server.startup ∅ = Raise (ValueError token_required) /\
  (exists cs,
     Server.startup sample_env = Return cs /\
     base_url (Server.recipes cs) = "https://test.workato.com/api").
Proof.
  destruct (base_url_default_only_in_constructor token_only_env None) as (Hc & Hf & _).
  destruct (base_url_default_only_in_constructor ∅ None) as (_ & _ & Hn & _).
  destruct (base_url_default_only_in_constructor sample_env None) as (_ & _ & _ & Hs).
  split; [|split; [|split]].
  - apply (Hc "test_token"); [discriminate| |reflexivity].
    right. split; [left|]; reflexivity.
  - apply (Hf "test_token"); [discriminate|reflexivity|]. left. reflexivity.
  - apply Hn. left. reflexivity.
  - destruct (Hs "test_token" "https://test.workato.com/api"
                 ltac:(discriminate) ltac:(discriminate) eq_refl eq_refl)
      as (cs & H1 & H2 & _).
    exists cs. split; assumption.
Defined.

Lemma falsy_filters_dropped_witness :
  Client.get_jobs (answer 200 body_jobs) sample_loads (VInt 0) (VStr "success") (VInt 0)
    (fresh sample_client)
  = Client.get_jobs (answer 200 body_jobs) sample_loads VNone (VStr "success") VNone
      (fresh sample_client) /\
  Client.copy_recipe (answer 200 body_ok) sample_loads (IdInt 1) (VInt 0) (fresh sample_client)
  = Client.copy_recipe (answer 200 body_ok) sample_loads (IdInt 1) VNone (fresh sample_client).
Proof.
  destruct (falsy_filters_dropped (answer 200 body_jobs) sample_loads (fresh sample_client))
    as (_ & Hr & _ & Hl & _).
  destruct (falsy_filters_dropped (answer 200 body_ok) sample_loads (fresh sample_client))
    as (_ & _ & _ & _ & _ & Hcopy & _).
  split.
  - rewrite (Hr (VInt 0) (VStr "success") (VInt 0) eq_refl).
    apply (Hl VNone (VStr "success") (VInt 0) eq_refl).
  - apply (Hcopy (IdInt 1) (VInt 0) eq_refl).
Defined.

Lemma unset_parameters_omitted_witness :
  wire (snd (Client.get_jobs (answer 200 body_jobs) sample_loads VNone (VStr "success") VNone
               (fresh sample_client)))
    = [with_params (VDict {[ "status" := VStr "success" ]})
         (request GET "https://test.workato.com/api/jobs" (headers sample_client))] /\
  wire (snd (Client.copy_recipe (answer 200 body_ok) sample_loads (IdInt 1) VNone
               (fresh sample_client)))
    = [request POST "https://test.workato.com/api/recipes/1/copy" (headers sample_client)] /\
  wire (snd (Client.test_recipe (answer 200 body_ok) sample_loads (IdInt 1) VNone
               (fresh sample_client)))
    = [with_json (VDict ∅)
         (request POST "https://test.workato.com/api/recipes/1/test_run"
            (headers sample_client))].
Proof.
  destruct (unset_parameters_omitted (answer 200 body_jobs) sample_loads (fresh sample_client))
    as (_ & _ & Hjobs & _).
  destruct (unset_parameters_omitted (answer 200 body_ok) sample_loads (fresh sample_client))
    as (_ & _ & _ & Hcopy & _ & _ & _ & _ & _ & _ & Htest).
  split; [|split].
  - rewrite (Hjobs (VStr "success") eq_refl). reflexivity.
  - rewrite (Hcopy (IdInt 1) VNone eq_refl). reflexivity.
  - rewrite (Htest (IdInt 1) VNone eq_refl). reflexivity.
Defined.

(** ** Where the code departs from the specification *)

(** Against C2: without input data, [test_recipe] does send a body, the empty
    JSON object; and [get_folder_assets] does send a falsy folder. *)
Lemma unset_or_falsy_still_sent :
  (exists req,
     wire (snd (Client.test_recipe (answer 200 body_ok) sample_loads (IdInt 1) VNone
                  (fresh sample_client))) = [req] /\
     json req = VDict ∅ /\
     json req <> VNone) /\
  (exists req m,
     wire (snd (Client.get_folder_assets (answer 200 body_ok) sample_loads (VInt 0)
                  false false (fresh sample_client))) = [req] /\
     truthy (VInt 0) = false /\
     params req = VDict m /\
     m !! "folder_id" = Some (VInt 0)).
Proof.
  split.
  - eexists. split; [reflexivity|]. split; [reflexivity|]. discriminate.
  - eexists. eexists. split; [reflexivity|]. split; [reflexivity|].
    split; reflexivity.
Qed.

(** Against C6: with the credential set and the base-URL variable missing,
    start-up of the server fails. *)
Lemma startup_fails_without_base_url :
  token_only_env !! "WORKATO_API_TOKEN" = Some "test_token" /\
  token_only_env !! "WORKATO_BASE_URL" = None /\
  Server.startup token_only_env
  = Raise (ValueError "Missing required environment variables: WORKATO_BASE_URL").
Proof. repeat split; vm_compute; reflexivity. Qed.

(** Against C7: [get_folder_assets] with folder 0 sends [folder_id=0]; the
    call is not the one made without a folder. *)
Lemma folder_assets_sends_zero :
  wire (snd (Client.get_folder_assets (answer 200 body_ok) sample_loads (VInt 0) false false
               (fresh sample_client)))
    = [with_params (VDict {[ "folder_id" := VInt 0 ]})
         (request GET "https://test.workato.com/api/export_manifests/folder_assets"
            (headers sample_client))] /\
  wire (snd (Client.get_folder_assets (answer 200 body_ok) sample_loads VNone false false
               (fresh sample_client)))
    = [with_params (VDict ∅)
         (request GET "https://test.workato.com/api/export_manifests/folder_assets"
            (headers sample_client))] /\
  Client.get_folder_assets (answer 200 body_ok) sample_loads (VInt 0) false false
    (fresh sample_client)
  <> Client.get_folder_assets (answer 200 body_ok) sample_loads VNone false false
       (fresh sample_client).
Proof.
  split; [reflexivity|]. split; [reflexivity|].
  intros H. apply (f_equal (fun p => wire (snd p))) in H.
  vm_compute in H. discriminate.
Qed.

(** * The further properties on examples *)

Lemma success_returns_decoded_witness :
  fst (Client.invoke (answer 200 body_jobs) sample_loads
         (Client.GetJobs VNone VNone VNone) (fresh sample_client))
  = Return sample_jobs.
Proof.
  destruct (success_returns_decoded (answer 200 body_jobs) sample_loads
              (Client.GetJobs VNone VNone VNone) (fresh sample_client) eq_refl eq_refl)
    as (req & _ & H).
  exact (H jobs_response sample_jobs eq_refl eq_refl eq_refl).
Defined.

Lemma undecodable_body_raises_witness :
  fst (Client.invoke (answer 200 body_html) sample_loads
         (Client.GetFolders) (fresh sample_client))
  = Raise JSONDecodeError /\
  fst (Client.invoke (answer 200 body_html) sample_loads
         (Client.DownloadPackage (IdInt 7)) (fresh sample_client))
  = Return (VBytes body_html).
Proof.
  split.
  - destruct (undecodable_body_raises (answer 200 body_html) sample_loads sample_repr
                Client.GetFolders (fresh sample_client) eq_refl) as (req & _ & H).
    exact (proj1 (H {| status_code := 200; resp_content := body_html |}
                    eq_refl eq_refl eq_refl)).
  - destruct (undecodable_body_raises (answer 200 body_html) sample_loads sample_repr
                (Client.DownloadPackage (IdInt 7)) (fresh sample_client) eq_refl)
      as (req & _ & H).
    exact (H {| status_code := 200; resp_content := body_html |} eq_refl eq_refl eq_refl).
Defined.

Lemma transport_failure_propagates_witness :
  fst (Tools.call refuse sample_loads sample_repr (Tools.DeleteRecipe (IdInt 3))
         (fresh sample_client))
  = Raise (TransportError "connection reset").
Proof.
  destruct (transport_failure_propagates refuse sample_loads sample_repr
              (Client.DeleteRecipe (IdInt 3)) (fresh sample_client) eq_refl)
    as (req & _ & H).
  destruct (H "connection reset" eq_refl) as [_ Ht].
  rewrite (Ht (Tools.DeleteRecipe (IdInt 3)) eq_refl). reflexivity.
Defined.

Lemma authorization_on_every_request_witness :
  exists reqs,
    wire (snd (Client.session (answer 500 body_ok) sample_loads
                 [Client.ImportPackage (IdInt 5) [Byte.x50; Byte.x4b] true false VNone;
                  Client.GetFolders]
                 (fresh sample_client))) = reqs /\
    length reqs = 2%nat /\
    Forall (fun req => r_headers req !! "Authorization" = Some "Bearer test_token") reqs.
Proof.
  destruct (authorization_on_every_request (answer 500 body_ok) sample_loads
              sample_env None None sample_client
              [Client.ImportPackage (IdInt 5) [Byte.x50; Byte.x4b] true false VNone;
               Client.GetFolders]
              [] eq_refl)
    as (reqs & Hw & Hl & Hall).
  exists reqs. repeat split; assumption.
Defined.

Lemma base_url_resolution_witness :
  (forall c, init sample_env None (Some "https://eu.workato.com/api") = Return c ->
             base_url c = "https://eu.workato.com/api") /\
  (forall c, init empty_url_env None None = Return c -> base_url c = "") /\
  (forall c, init token_only_env None None = Return c -> base_url c = default_base_url).
Proof.
  split; [|split]; intros c Hc.
  - destruct (base_url_resolution _ _ _ c Hc) as (H & _ & _).
    apply H; [discriminate|reflexivity].
  - destruct (base_url_resolution _ _ _ c Hc) as (_ & H & _).
    apply H; [by left|reflexivity].
  - destruct (base_url_resolution _ _ _ c Hc) as (_ & _ & H).
    apply H; [by left|reflexivity].
Defined.

Lemma init_fails_only_without_token_witness :
  init ∅ None (Some "https://eu.workato.com/api") = Raise (ValueError token_required) /\
  exists c, init sample_env (Some "") None = Return c.
Proof.
  split.
  - destruct (init ∅ None (Some "https://eu.workato.com/api")) as [c|e] eqn:Hi;
      [discriminate Hi|].
    f_equal.
    exact (proj2 (init_fails_only_without_token ∅ None (Some "https://eu.workato.com/api"))
                 e Hi).
  - apply (proj1 (init_fails_only_without_token sample_env (Some "") None)).
    exists "test_token". split; [discriminate|].
    right. split; [by right|reflexivity].
Defined.

Lemma startup_outcomes_witness :
  Server.startup ∅ = Raise (ValueError token_required) /\
  Server.startup empty_url_env
  = Raise (ValueError "Missing required environment variables: WORKATO_BASE_URL") /\
  (forall cs, Server.startup sample_env = Return cs ->
              Server.lookup_tables cs = Server.recipes cs).
Proof.
  split; [|split].
  - apply (proj1 (startup_outcomes ∅)). by left.
  - destruct (startup_outcomes empty_url_env) as (_ & H & _).
    apply (H "test_token"); [discriminate|reflexivity|by right].
  - intros cs Hcs.
    destruct (startup_outcomes sample_env) as (_ & _ & H).
    destruct (H cs Hcs) as (_ & _ & _ & _ & Hl & _). exact Hl.
Defined.

Lemma list_recipes_counts_witness :
  fst (Tools.list_recipes (answer 200 body_jobs) sample_loads sample_repr false
         (fresh sample_client))
  = Return (VStr ("Found 2 recipes:" +:+ nl +:+ nl +:+ "[...]")).
Proof.
  destruct (list_recipes_counts (answer 200 body_jobs) sample_loads sample_repr false
              (fresh sample_client) jobs_response sample_jobs eq_refl eq_refl eq_refl)
    as [H _].
  rewrite H. reflexivity.
Defined.

Lemma tools_add_no_failures_witness :
  fst (Client.invoke (answer 404 body_ok) sample_loads
         (Tools.delegate (Tools.GetPackage (IdInt 9))) (fresh sample_client))
  = Raise (HTTPStatusError {| status_code := 404; resp_content := body_ok |}).
Proof.
  destruct (tools_add_no_failures (answer 404 body_ok) sample_loads sample_repr
              (Tools.GetPackage (IdInt 9)) (fresh sample_client)
              (HTTPStatusError {| status_code := 404; resp_content := body_ok |})
              eq_refl)
    as [H | (b & v & Ht & _)].
  - exact H.
  - discriminate Ht.
Defined.

Lemma identifiers_inserted_verbatim_witness :
  7 = 7 /\
  exists req1 req2,
    snd (Client.get_recipe_details (answer 200 body_ok) sample_loads (IdStr "7/versions")
           (fresh sample_client)) = sent req1 (fresh sample_client) /\
    snd (Client.get_recipe_versions (answer 200 body_ok) sample_loads (IdInt 7) 1 100
           (fresh sample_client)) = sent req2 (fresh sample_client) /\
    url req1 = url req2.
Proof.
  destruct (identifiers_inserted_verbatim (answer 200 body_ok) sample_loads
              (fresh sample_client)) as [Hinj Hcol].
  split.
  - exact (Hinj 7 7
             (request GET "https://test.workato.com/api/recipes/7" (headers sample_client))
             (request GET "https://test.workato.com/api/recipes/7" (headers sample_client))
             eq_refl eq_refl eq_refl).
  - destruct (Hcol 7 1 100) as (req1 & req2 & H1 & H2 & _ & Hu).
    exists req1, req2. repeat split; assumption.
Defined.

Lemma binary_and_redirect_only_where_needed_witness :
  exists req,
    snd (Client.invoke (answer 200 body_ok) sample_loads
           (Client.ImportPackage (IdInt 5) [Byte.x50; Byte.x4b] false false VNone)
           (fresh sample_client)) = sent req (fresh sample_client) /\
    content req <> VNone /\ json req = VNone /\ follow_redirects req = false.
Proof.
  destruct (binary_and_redirect_only_where_needed (answer 200 body_ok) sample_loads
              (Client.ImportPackage (IdInt 5) [Byte.x50; Byte.x4b] false false VNone)
              (fresh sample_client)) as (req & Hs & Hc & Hj & Hf).
  exists req. split; [exact Hs|].
  assert (Hn : content req <> VNone) by (apply (proj2 Hc); reflexivity).
  split; [exact Hn|]. split; [exact (Hj Hn)|exact Hf].
Defined.


Lemma recipe_dict_excludes_none_witness :
  Models.dict_exclude_none
    {| Models.name := "New Recipe"; Models.code := "{}";
       Models.folder_id := None; Models.description := Some "Test recipe" |}
    !! "folder_id" = None /\
  VStr "Test recipe" <> VNone.
Proof.
  destruct (recipe_dict_excludes_none (answer 200 body_ok) sample_loads sample_repr
              {| Models.name := "New Recipe"; Models.code := "{}";
                 Models.folder_id := None; Models.description := Some "Test recipe" |}
              (fresh sample_client)) as (_ & _ & Hf & _ & Hall & _).
  split; [exact Hf|].
  exact (proj1 (Hall "description" (VStr "Test recipe") eq_refl)).
Defined.

Lemma filters_override_pagination_witness :
  exists m,
    snd (Client.list_lookup_table_rows (answer 200 body_jobs) sample_loads (IdInt 3) 1 500
           (Some {[ "page" := VInt 9 ]}) (fresh sample_client))
      = sent (with_params (VDict m)
                (request GET "https://test.workato.com/api/lookup_tables/3/rows"
                   (headers sample_client))) (fresh sample_client) /\
    m !! "page" = Some (VInt 9) /\
    m !! "per_page" = Some (VInt 500).
Proof.
  destruct (filters_override_pagination (answer 200 body_jobs) sample_loads (IdInt 3) 1 500
              {[ "page" := VInt 9 ]} (fresh sample_client))
    as (m & Hs & Hf & _ & Hpp & _).
  exists m. split; [exact Hs|]. split.
  - apply Hf. reflexivity.
  - apply Hpp. reflexivity.
Defined.
